(** * elasticapm.contrib.sanic.utils

    A shallow embedding of [elasticapm/contrib/sanic/utils.py]: the
    functions that read a Sanic request or response and build the
    dictionaries handed to the APM client.

    Python values are embedded as follows:
    - [str] is a sequence of Unicode code points;
    - [bytes] is a sequence of octets;
    - [dict] is an insertion-ordered association list with unique keys;
    - a raised exception is the [Raise] outcome of a small error monad;
    - an attribute whose type the framework does not fix to one class is
      a dynamically typed value. *)

From Stdlib Require Import List ZArith NArith Bool String Ascii Lia.
From Stdlib.Strings Require Import Byte.
From Stdlib Require Import DecimalString.
Import ListNotations.

Local Open Scope N_scope.
Local Open Scope list_scope.

(** ** Python [str] *)

Module PyStr.

Definition str : Type := list N.

(** An ASCII literal of the source, as a [str]. *)
Definition lit (s : string) : str :=
  List.map N_of_ascii (list_ascii_of_string s).

Fixpoint eqb (s t : str) : bool :=
  match s, t with
  | [], [] => true
  | c :: s', d :: t' => N.eqb c d && eqb s' t'
  | _, _ => false
  end.

(** [s.startswith(prefix)] *)
Fixpoint startswith (s prefix : str) : bool :=
  match prefix, s with
  | [], _ => true
  | p :: prefix', c :: s' => N.eqb p c && startswith s' prefix'
  | _ :: _, [] => false
  end.

(** [needle in s] *)
Fixpoint contains (needle s : str) : bool :=
  startswith s needle ||
  match s with
  | [] => false
  | _ :: s' => contains needle s'
  end.

(** [s.split(sep)] for a separator of one character, which is how the
    module calls it.  The result is never the empty list. *)
Fixpoint split (sep : N) (s : str) : list str :=
  match s with
  | [] => [[]]
  | c :: s' =>
      if N.eqb c sep then [] :: split sep s'
      else match split sep s' with
           | w :: ws => (c :: w) :: ws
           | [] => [[c]]
           end
  end.

(** [str(n)] for an [int]. *)
Definition of_int (z : Z) : str :=
  lit (NilZero.string_of_int (Z.to_int z)).

(** [bool(s)] *)
Definition truthy (s : str) : bool :=
  match s with [] => false | _ :: _ => true end.

(** The part of [s] left of the first occurrence of [sep]. *)
Fixpoint before (sep : N) (s : str) : str :=
  match s with
  | [] => []
  | c :: s' => if N.eqb c sep then [] else c :: before sep s'
  end.

End PyStr.

Notation str := PyStr.str.
Notation lit := PyStr.lit.

(** ** Exceptions *)

Inductive exn : Type :=
| UnicodeDecodeError
| IndexError
| AttributeError
| TypeError.

Inductive outcome (A : Type) : Type :=
| Return (a : A)
| Raise (e : exn).

Arguments Return {A} a.
Arguments Raise {A} e.

Definition bind {A B : Type} (m : outcome A) (k : A -> outcome B) : outcome B :=
  match m with
  | Return a => k a
  | Raise e => Raise e
  end.

Notation "x <- m ;; k" := (bind m (fun x => k))
  (at level 61, m at next level, right associativity).

(** [try: body  except Exception: handler] *)
Definition try_except {A : Type} (body : outcome A) (handler : outcome A) : outcome A :=
  match body with
  | Return a => Return a
  | Raise _ => handler
  end.

(** ** Python [bytes] and [bytes.decode("utf-8")] *)

Module Utf8.

Definition bytes : Type := list byte.

Definition between (lo hi b : N) : bool := (lo <=? b) && (b <=? hi).

Definition is_cont (b : N) : bool := between 0x80 0xBF b.

Definition low6 (b : N) : N := N.land b 0x3F.

(** Range allowed for the second byte of a three-byte sequence: no
    overlong forms after [E0], no surrogates after [ED]. *)
Definition second_of_3 (b0 b1 : N) : bool :=
  if b0 =? 0xE0 then between 0xA0 0xBF b1
  else if b0 =? 0xED then between 0x80 0x9F b1
  else is_cont b1.

(** Range allowed for the second byte of a four-byte sequence: no
    overlong forms after [F0], nothing above U+10FFFF after [F4]. *)
Definition second_of_4 (b0 b1 : N) : bool :=
  if b0 =? 0xF0 then between 0x90 0xBF b1
  else if b0 =? 0xF4 then between 0x80 0x8F b1
  else is_cont b1.

(** The strict decoder: [None] where Python raises
    [UnicodeDecodeError]. *)
Fixpoint decode_points (bs : bytes) : option str :=
  match bs with
  | [] => Some []
  | x0 :: r0 =>
      let b0 := Byte.to_N x0 in
      if b0 <? 0x80 then
        option_map (cons b0) (decode_points r0)
      else if between 0xC2 0xDF b0 then
        match r0 with
        | x1 :: r1 =>
            let b1 := Byte.to_N x1 in
            if is_cont b1 then
              option_map
                (cons (N.lor (N.shiftl (N.land b0 0x1F) 6) (low6 b1)))
                (decode_points r1)
            else None
        | _ => None
        end
      else if between 0xE0 0xEF b0 then
        match r0 with
        | x1 :: x2 :: r2 =>
            let b1 := Byte.to_N x1 in
            let b2 := Byte.to_N x2 in
            if second_of_3 b0 b1 && is_cont b2 then
              option_map
                (cons (N.lor (N.shiftl (N.land b0 0x0F) 12)
                         (N.lor (N.shiftl (low6 b1) 6) (low6 b2))))
                (decode_points r2)
            else None
        | _ => None
        end
      else if between 0xF0 0xF4 b0 then
        match r0 with
        | x1 :: x2 :: x3 :: r3 =>
            let b1 := Byte.to_N x1 in
            let b2 := Byte.to_N x2 in
            let b3 := Byte.to_N x3 in
            if second_of_4 b0 b1 && is_cont b2 && is_cont b3 then
              option_map
                (cons (N.lor (N.shiftl (N.land b0 0x07) 18)
                         (N.lor (N.shiftl (low6 b1) 12)
                            (N.lor (N.shiftl (low6 b2) 6) (low6 b3)))))
                (decode_points r3)
            else None
        | _ => None
        end
      else None
  end.

(** [bs.decode("utf-8")] *)
Definition decode (bs : bytes) : outcome str :=
  match decode_points bs with
  | Some s => Return s
  | None => Raise UnicodeDecodeError
  end.

(** A [bytes] literal holding ASCII text. *)
Definition of_ascii (s : string) : bytes := list_byte_of_string s.

End Utf8.

Notation bytes := Utf8.bytes.

(** ** Python [dict] with [str] keys

    Entries are kept in insertion order; assigning to a key that is
    already there replaces its value in place. *)

Module PyDict.

Section Dict.
Context {V : Type}.

Definition dict : Type := list (str * V).

(** [d.get(k)] *)
Fixpoint get (k : str) (d : dict) : option V :=
  match d with
  | [] => None
  | (k', v) :: d' => if PyStr.eqb k k' then Some v else get k d'
  end.

(** [k in d] *)
Definition contains (k : str) (d : dict) : bool :=
  match get k d with
  | Some _ => true
  | None => false
  end.

(** [d[k] = v] *)
Fixpoint set (k : str) (v : V) (d : dict) : dict :=
  match d with
  | [] => [(k, v)]
  | (k', v') :: d' =>
      if PyStr.eqb k k' then (k', v) :: d' else (k', v') :: set k v d'
  end.

(** [d.pop(k, None)]: the value removed, if any, and what is left. *)
Fixpoint pop (k : str) (d : dict) : option V * dict :=
  match d with
  | [] => (None, [])
  | (k', v) :: d' =>
      if PyStr.eqb k k' then (Some v, d')
      else let (r, d'') := pop k d' in (r, (k', v) :: d'')
  end.

(** [d.update(other)] *)
Definition update (d : dict) (other : list (str * V)) : dict :=
  fold_left (fun acc kv => set (fst kv) (snd kv) acc) other d.

(** [dict(items)] *)
Definition of_items (items : list (str * V)) : dict :=
  update [] items.

(** [dict(m)] for a mapping [m] that may hold a key several times, as
    Sanic's headers do; [items] are the items of [m].  [dict] visits the
    keys of [m] and stores [m[key]], which is the first value of the
    key. *)
Definition of_mapping (items : list (str * V)) : dict :=
  fold_left
    (fun acc kv => if contains (fst kv) acc then acc else set (fst kv) (snd kv) acc)
    items [].

Definition keys (d : dict) : list str := List.map fst d.

(** How many entries of [d] have the key [k]. *)
Definition count (k : str) (d : dict) : nat :=
  List.length (List.filter (fun kv => PyStr.eqb k (fst kv)) d).

End Dict.

Arguments dict V : clear implicits.

End PyDict.

Notation dict := PyDict.dict.

(** ** Python values that end up in the payload *)

Inductive pyval : Type :=
| VNone
| VBool (b : bool)
| VInt (z : Z)
| VStr (s : str)
| VDict (d : list (str * pyval)).

(** [isinstance(v, int)]; [bool] is a subclass of [int]. *)
Definition is_integer (v : pyval) : bool :=
  match v with
  | VInt _ | VBool _ => true
  | _ => false
  end.

(** [bool(v)] *)
Definition py_truthy (v : pyval) : bool :=
  match v with
  | VNone => false
  | VBool b => b
  | VInt z => negb (Z.eqb z 0)
  | VStr s => PyStr.truthy s
  | VDict d => match d with [] => false | _ :: _ => true end
  end.

(** [v.split(sep)]: only a [str] has the method. *)
Definition py_split (v : pyval) (sep : N) : outcome (list str) :=
  match v with
  | VStr s => Return (PyStr.split sep s)
  | _ => Raise AttributeError
  end.

(** [needle in v] for something that is [None] or a [str]; [None] is
    not a container. *)
Definition str_in_text (needle : str) (v : option str) : outcome bool :=
  match v with
  | Some s => Return (PyStr.contains needle s)
  | None => Raise TypeError
  end.

(** ** The framework objects, as far as this module reads them *)

(** [elasticapm.conf.Config] *)
Record Config : Type := {
  capture_headers : bool;
  capture_body : bool
}.

Module Request.
Record t : Type := {
  (** attributes that [hasattr] may or may not find *)
  attrs : list (str * pyval);
  method : str;
  scheme : str;
  cookies : pyval;
  headers : list (str * pyval);
  content_type : str;
  body : bytes;
  url : str;
  (** Sanic hands out its parsed proxy options here, a dictionary *)
  forwarded : pyval;
  socket : option str * option Z;
  ip : option str;
  port : option Z;
  remote_addr : str;
  (** [request.app.config] *)
  app_config : list (str * pyval)
}.
End Request.

Module Response.
Record t : Type := {
  cookies : pyval;
  status : pyval;
  headers : list (str * pyval);
  (** [None] when the response was built without a content type *)
  content_type : option str;
  body : bytes
}.
End Response.

(** [Union[Request, HTTPResponse]]: anything with a [headers] mapping,
    given by its items. *)
Class Entity (E : Type) : Type := {
  entity_headers : E -> list (str * pyval)
}.

#[export] Instance Request_Entity : Entity Request.t :=
  {| entity_headers := Request.headers |}.

#[export] Instance Response_Entity : Entity Response.t :=
  {| entity_headers := Response.headers |}.

(** ** The functions of [utils.py] *)

(** [x in xs] for a list, tuple or set of strings. *)
Definition str_in (x : str) (xs : list str) : bool :=
  List.existsb (PyStr.eqb x) xs.

(** [bool(x)] for something that is [None] or a [str]. *)
Definition str_truthy (x : option str) : bool :=
  match x with
  | Some s => PyStr.truthy s
  | None => false
  end.

(** [bool(x)] for something that is [None] or an [int]. *)
Definition int_truthy (x : option Z) : bool :=
  match x with
  | Some z => negb (Z.eqb z 0)
  | None => false
  end.

(** [f"{x}"] for something that is [None] or a [str]. *)
Definition format_str (x : option str) : str :=
  match x with
  | Some s => s
  | None => lit "None"
  end.

(** [f"{x}"] for something that is [None] or an [int]. *)
Definition format_int (x : option Z) : str :=
  match x with
  | Some z => PyStr.of_int z
  | None => lit "None"
  end.

(** [f"{host}:{port}"] *)
Definition host_port (host : option str) (port : option Z) : str :=
  format_str host ++ lit ":" ++ format_int port.

(** [xs[0]] *)
Definition first_item {A : Type} (xs : list A) : outcome A :=
  match xs with
  | x :: _ => Return x
  | [] => Raise IndexError
  end.

Definition COMMA : N := 44.

Definition DISCARDED : str := lit "[DISCARDED]".
Definition REDACTED : str := lit "[REDACTED]".

Definition hasattr (request : Request.t) (name : str) : bool :=
  PyDict.contains name (Request.attrs request).

Definition getattr (request : Request.t) (name : str) : option pyval :=
  PyDict.get name (Request.attrs request).

Definition ENV_ATTRS : list str :=
  [lit "server_name"; lit "server_port"; lit "version"].

(** The loop of [get_env] over the attributes still to visit; the pairs
    are listed in the order the generator yields them. *)
Fixpoint get_env_loop (request : Request.t) (names : list str) : list (str * pyval) :=
  match names with
  | [] => []
  | _attr :: rest =>
      match getattr request _attr with
      | Some v => (_attr, v) :: get_env_loop request rest
      | None => get_env_loop request rest
      end
  end.

Definition get_env (request : Request.t) : list (str * pyval) :=
  get_env_loop request ENV_ATTRS.

Definition extract_header {E : Type} `{Entity E}
    (entity : E) (skip_headers : option (list str)) : dict pyval :=
  let header := PyDict.of_mapping (entity_headers entity) in
  match skip_headers with
  | Some ((_ :: _) as names) =>
      fold_left (fun header _header => snd (PyDict.pop _header header)) names header
  | _ => header
  end.

Definition _get_client_ip (request : Request.t) : outcome str :=
  let otherwise :=
    match Request.socket request with
    | (None, None) =>
        if str_truthy (Request.ip request) && int_truthy (Request.port request) then
          Return (host_port (Request.ip request) (Request.port request))
        else
          Return (Request.remote_addr request)
    | (host, port) => Return (host_port host port)
    end in
  let x_forwarded_for := Request.forwarded request in
  if py_truthy x_forwarded_for then
    fields <- py_split x_forwarded_for COMMA ;;
    first_item fields
  else otherwise.

Section Utils.

(** [elasticapm.conf.constants.HTTP_WITH_BODY] *)
Variable HTTP_WITH_BODY : list str.

(** [elasticapm.utils.get_url_dict] *)
Variable get_url_dict : str -> pyval.

(** The content types whose body is not to be reported. *)
Definition discarded_type (content_type : str) : bool :=
  PyStr.startswith content_type (lit "multipart")
  || PyStr.contains (lit "octet-stream") content_type.

Definition get_request_info
    (config : Config) (request : Request.t) (skip_headers : option (list str))
    : outcome (dict pyval) :=
  let env := PyDict.of_items (get_env request) in
  let env := PyDict.update env (PyDict.of_items (Request.app_config request)) in
  remote_address <- _get_client_ip request ;;
  let result :=
    PyDict.of_items
      [ (lit "env", VDict env);
        (lit "method", VStr (Request.method request));
        (lit "socket",
          VDict (PyDict.of_items
            [ (lit "remote_address", VStr remote_address);
              (lit "encrypted",
                VBool (str_in (Request.scheme request) [lit "https"; lit "wss"])) ]));
        (lit "cookies", Request.cookies request) ] in
  let result :=
    if capture_headers config then
      PyDict.set (lit "headers") (VDict (extract_header request skip_headers)) result
    else result in
  result <-
    (if str_in (Request.method request) HTTP_WITH_BODY && capture_body config then
       let result :=
         if discarded_type (Request.content_type request) then
           PyDict.set (lit "body") (VStr DISCARDED) result
         else result in
       try_except
         (decoded <- Utf8.decode (Request.body request) ;;
          Return (PyDict.set (lit "body") (VStr decoded) result))
         (Return result)
     else Return result) ;;
  let result :=
    if negb (PyDict.contains (lit "body") result) then
      PyDict.set (lit "body") (VStr REDACTED) result
    else result in
  let result := PyDict.set (lit "url") (get_url_dict (Request.url request)) result in
  Return result.

Definition get_response_info
    (config : Config) (response : Response.t) (skip_headers : option (list str))
    : outcome (dict pyval) :=
  let result := PyDict.of_items [ (lit "cookies", Response.cookies response) ] in
  let result :=
    if is_integer (Response.status response) then
      PyDict.set (lit "status_code") (Response.status response) result
    else result in
  let result :=
    if capture_headers config then
      PyDict.set (lit "headers") (VDict (extract_header response skip_headers)) result
    else result in
  decodable <-
    (if capture_body config then
       found <- str_in_text (lit "octet-stream") (Response.content_type response) ;;
       Return (negb found)
     else Return false) ;;
  result <-
    (if decodable then
       decoded <- Utf8.decode (Response.body response) ;;
       Return (PyDict.set (lit "body") (VStr decoded) result)
     else Return (PyDict.set (lit "body") (VStr REDACTED) result)) ;;
  Return result.

End Utils.

(** ** Sample inputs *)

Module Samples.

Definition HTTP_WITH_BODY : list str :=
  [lit "POST"; lit "PUT"; lit "PATCH"; lit "DELETE"].

Definition get_url_dict (url : str) : pyval :=
  VDict [(lit "full", VStr url)].

Definition capture_all : Config :=
  {| capture_headers := true; capture_body := true |}.

Definition capture_nothing : Config :=
  {| capture_headers := false; capture_body := false |}.

(** A request on a bare socket, with one header and no forwarding. *)
Definition request (method content_type : str) (body : bytes) : Request.t :=
  {| Request.attrs :=
       [ (lit "server_name", VStr (lit "localhost"));
         (lit "server_port", VInt 8000) ];
     Request.method := method;
     Request.scheme := lit "https";
     Request.cookies := VDict [];
     Request.headers := [ (lit "accept", VStr (lit "*/*")) ];
     Request.content_type := content_type;
     Request.body := body;
     Request.url := lit "https://localhost:8000/";
     Request.forwarded := VDict [];
     Request.socket := (Some (lit "9.9.9.9"), Some 80%Z);
     Request.ip := Some (lit "9.9.9.9");
     Request.port := Some 80%Z;
     Request.remote_addr := lit "9.9.9.9";
     Request.app_config := [ (lit "server_name", VStr (lit "configured")) ] |}.

(** [POST], [application/octet-stream], body [b"abc"] *)
Definition binary_upload : Request.t :=
  request (lit "POST") (lit "application/octet-stream") (Utf8.of_ascii "abc").

(** [POST], [application/octet-stream], body [b"\xff"] *)
Definition binary_garbage : Request.t :=
  request (lit "POST") (lit "application/octet-stream") [xff].

(** [POST], [text/plain], body [b"\xff"] *)
Definition text_garbage : Request.t :=
  request (lit "POST") (lit "text/plain") [xff].

(** [POST], [text/plain], body [b"abc"] *)
Definition text_upload : Request.t :=
  request (lit "POST") (lit "text/plain") (Utf8.of_ascii "abc").

(** A request that differs from [text_upload] in how the client can be
    found. *)
Definition reached_by
    (forwarded : pyval) (socket : option str * option Z)
    (ip : option str) (port : option Z) : Request.t :=
  {| Request.attrs := Request.attrs text_upload;
     Request.method := Request.method text_upload;
     Request.scheme := Request.scheme text_upload;
     Request.cookies := Request.cookies text_upload;
     Request.headers := Request.headers text_upload;
     Request.content_type := Request.content_type text_upload;
     Request.body := Request.body text_upload;
     Request.url := Request.url text_upload;
     Request.forwarded := forwarded;
     Request.socket := socket;
     Request.ip := ip;
     Request.port := port;
     Request.remote_addr := lit "unknown";
     Request.app_config := Request.app_config text_upload |}.

Definition via_proxy : Request.t :=
  reached_by (VStr (lit "1.2.3.4, 5.6.7.8"))
    (Some (lit "9.9.9.9"), Some 80%Z) (Some (lit "7.7.7.7")) (Some 8080%Z).

Definition via_socket : Request.t :=
  reached_by (VDict []) (Some (lit "9.9.9.9"), Some 80%Z)
    (Some (lit "7.7.7.7")) (Some 8080%Z).

Definition via_ip_port : Request.t :=
  reached_by (VDict []) (None, None) (Some (lit "7.7.7.7")) (Some 8080%Z).

(** A response with the body [b"\xff"] sent as [text/plain]. *)
Definition garbage_response : Response.t :=
  {| Response.cookies := VDict [];
     Response.status := VInt 200;
     Response.headers := [ (lit "a", VStr (lit "1")) ];
     Response.content_type := Some (lit "text/plain");
     Response.body := [xff] |}.

End Samples.

(** ** [make_client] *)

Section Client.

(** [sanic.__version__] *)
Variable version : str.

(** What a client class returns; [elasticapm.base.Client] by default. *)
Variable Client : Type.

(** [defaults] is the dictionary of the keyword arguments; the class is
    called with the configuration and these keywords. *)
Definition make_client
    (config : dict pyval)
    (client_cls : dict pyval -> dict pyval -> Client)
    (defaults : dict pyval) : Client :=
  let defaults :=
    if negb (PyDict.contains (lit "framework_name") defaults) then
      let defaults :=
        PyDict.set (lit "framework_name") (VStr (lit "sanic")) defaults in
      PyDict.set (lit "framework_version") (VStr version) defaults
    else defaults in
  client_cls config defaults.

End Client.

(** ** Further sample inputs *)

Module MoreSamples.

(** [POST], [text/plain], empty body *)
Definition empty_upload : Request.t :=
  Samples.request (lit "POST") (lit "text/plain") [].

(** [GET], [text/plain], body [b"abc"] *)
Definition plain_get : Request.t :=
  Samples.request (lit "GET") (lit "text/plain") (Utf8.of_ascii "abc").

(** No forwarding, no socket, an address and the port [0]. *)
Definition port_zero : Request.t :=
  Samples.reached_by (VDict []) (None, None) (Some (lit "7.7.7.7")) (Some 0%Z).

(** No forwarding, and a socket pair of which only the port is known. *)
Definition half_socket : Request.t :=
  Samples.reached_by (VDict []) (None, Some 80%Z)
    (Some (lit "7.7.7.7")) (Some 8080%Z).

(** A response with the body [b"ok"] sent as [text/plain]. *)
Definition text_response : Response.t :=
  {| Response.cookies := VDict [];
     Response.status := VInt 200;
     Response.headers :=
       [ (lit "a", VStr (lit "1")); (lit "b", VStr (lit "2"));
         (lit "c", VStr (lit "3")) ];
     Response.content_type := Some (lit "text/plain");
     Response.body := Utf8.of_ascii "ok" |}.

(** A response with the body [b"\xff"] sent as
    [application/octet-stream]. *)
Definition binary_response : Response.t :=
  {| Response.cookies := VDict [];
     Response.status := VStr (lit "200 OK");
     Response.headers := [];
     Response.content_type := Some (lit "application/octet-stream");
     Response.body := [xff] |}.

(** A response built without a content type, with the body [b"ok"]. *)
Definition untyped_response : Response.t :=
  {| Response.cookies := VDict [];
     Response.status := VInt 200;
     Response.headers := [];
     Response.content_type := None;
     Response.body := Utf8.of_ascii "ok" |}.

(** A request that carries [X-Forwarded-For: 1.2.3.4, 5.6.7.8] and
    comes in on the socket [("9.9.9.9", 80)]; [forwarded] is what Sanic
    made of the proxy headers. *)
Definition behind_proxy (forwarded : pyval) : Request.t :=
  {| Request.attrs := Request.attrs Samples.text_upload;
     Request.method := Request.method Samples.text_upload;
     Request.scheme := Request.scheme Samples.text_upload;
     Request.cookies := Request.cookies Samples.text_upload;
     Request.headers :=
       [ (lit "x-forwarded-for", VStr (lit "1.2.3.4, 5.6.7.8")) ];
     Request.content_type := Request.content_type Samples.text_upload;
     Request.body := Request.body Samples.text_upload;
     Request.url := Request.url Samples.text_upload;
     Request.forwarded := forwarded;
     Request.socket := (Some (lit "9.9.9.9"), Some 80%Z);
     Request.ip := Some (lit "9.9.9.9");
     Request.port := Some 80%Z;
     Request.remote_addr := lit "9.9.9.9";
     Request.app_config := Request.app_config Samples.text_upload |}.

(** The proxy is trusted: Sanic reports the client it found. *)
Definition trusted_proxy : Request.t :=
  behind_proxy (VDict [ (lit "for", VStr (lit "1.2.3.4")) ]).

(** No proxy is trusted: Sanic reports no proxy options. *)
Definition untrusted_proxy : Request.t :=
  behind_proxy (VDict []).

Definition sanic_version : str := lit "21.12.1".

(** Keyword arguments that name the framework. *)
Definition named_framework : dict pyval :=
  [ (lit "framework_name", VStr (lit "custom"));
    (lit "service_name", VStr (lit "shop")) ].

(** Keyword arguments that give a version but no framework name. *)
Definition unnamed_framework : dict pyval :=
  [ (lit "framework_version", VStr (lit "0.1"));
    (lit "service_name", VStr (lit "shop")) ].

End MoreSamples.

(** ** Facts about strings *)

Module PyStrFacts.

Lemma eqb_eq (s t : str) : PyStr.eqb s t = true <-> s = t.
Proof.
  revert t; induction s as [|c s IH]; intros [|d t]; simpl;
    try (split; [discriminate | discriminate]); try tauto.
  rewrite andb_true_iff, N.eqb_eq, IH.
  split; [intros [-> ->]; reflexivity | intros E; inversion E; auto].
Qed.

Lemma eqb_refl (s : str) : PyStr.eqb s s = true.
Proof. apply eqb_eq; reflexivity. Qed.

Lemma eqb_spec (s t : str) : reflect (s = t) (PyStr.eqb s t).
Proof. apply iff_reflect; symmetry; apply eqb_eq. Qed.

Lemma eqb_neq (s t : str) : PyStr.eqb s t = false <-> s <> t.
Proof.
  destruct (eqb_spec s t); split; intros; try congruence; contradiction.
Qed.

Lemma eqb_sym (s t : str) : PyStr.eqb s t = PyStr.eqb t s.
Proof.
  destruct (eqb_spec s t), (eqb_spec t s); congruence.
Qed.

(** The first field of a split is what stands before the separator. *)
Lemma split_first (sep : N) (s : str) :
  exists rest, PyStr.split sep s = PyStr.before sep s :: rest.
Proof.
  induction s as [|c s [rest IH]]; simpl.
  - exists []; reflexivity.
  - destruct (N.eqb c sep).
    + eexists; reflexivity.
    + rewrite IH; eexists; reflexivity.
Qed.

Lemma str_in_In (x : str) (xs : list str) : str_in x xs = true <-> In x xs.
Proof.
  unfold str_in; rewrite existsb_exists; split.
  - intros (y & Hy & E); apply eqb_eq in E; subst; assumption.
  - intros Hx; exists x; split; [assumption | apply eqb_refl].
Qed.

Lemma str_in_not_In (x : str) (xs : list str) : str_in x xs = false <-> ~ In x xs.
Proof.
  rewrite <- str_in_In; destruct (str_in x xs); split; congruence.
Qed.

Example split_forwarded :
  PyStr.split COMMA (lit "1.2.3.4, 5.6.7.8") = [lit "1.2.3.4"; lit " 5.6.7.8"].
Proof. reflexivity. Qed.

Example split_empty : PyStr.split COMMA (lit "") = [lit ""].
Proof. reflexivity. Qed.

Example of_int_samples :
  PyStr.of_int 8080 = lit "8080" /\ PyStr.of_int 0 = lit "0"
  /\ PyStr.of_int (-12) = lit "-12".
Proof. repeat split. Qed.

End PyStrFacts.

(** ** The decoder on well-known inputs *)

Module Utf8Facts.

Example decode_ascii : Utf8.decode (Utf8.of_ascii "abc") = Return (lit "abc").
Proof. reflexivity. Qed.

(** U+00E9, U+20AC and U+1F600 in two, three and four bytes. *)
Example decode_multibyte :
  Utf8.decode [xc3; xa9; xe2; x82; xac; xf0; x9f; x98; x80]
  = Return [0xE9; 0x20AC; 0x1F600].
Proof. reflexivity. Qed.

(** A stray byte, a truncated sequence, an overlong form, a surrogate
    and a code point above U+10FFFF are all rejected. *)
Example decode_rejects :
  Utf8.decode [xff] = Raise UnicodeDecodeError
  /\ Utf8.decode [xe2; x82] = Raise UnicodeDecodeError
  /\ Utf8.decode [xc0; x80] = Raise UnicodeDecodeError
  /\ Utf8.decode [xed; xa0; x80] = Raise UnicodeDecodeError
  /\ Utf8.decode [xf4; x90; x80; x80] = Raise UnicodeDecodeError.
Proof. repeat split. Qed.

Lemma decode_points_ascii (bs : bytes) :
  Forall (fun b => Byte.to_N b < 0x80) bs ->
  Utf8.decode_points bs = Some (List.map Byte.to_N bs).
Proof.
  induction 1 as [|b bs Hb _ IH]; simpl; [reflexivity|].
  apply N.ltb_lt in Hb; rewrite Hb, IH; reflexivity.
Qed.

End Utf8Facts.

(** ** Facts about dictionaries *)

Module PyDictFacts.
Import PyStrFacts.

Section Facts.
Context {V : Type}.
Implicit Types (d : dict V) (k : str) (v : V).

Lemma get_set_same k v d : PyDict.get k (PyDict.set k v d) = Some v.
Proof.
  induction d as [|[k' v'] d IH]; simpl.
  - rewrite eqb_refl; reflexivity.
  - destruct (PyStr.eqb k k') eqn:E; simpl; rewrite E; auto.
Qed.

Lemma get_set_other k k' v d :
  k <> k' -> PyDict.get k (PyDict.set k' v d) = PyDict.get k d.
Proof.
  intros Hne; induction d as [|[k0 v0] d IH]; simpl.
  - apply eqb_neq in Hne; rewrite Hne; reflexivity.
  - pose proof (proj2 (eqb_neq _ _) Hne) as E.
    destruct (eqb_spec k' k0) as [->|Hk0]; simpl.
    + rewrite E; reflexivity.
    + rewrite IH; reflexivity.
Qed.

Lemma get_set k k' v d :
  PyDict.get k (PyDict.set k' v d)
  = if PyStr.eqb k k' then Some v else PyDict.get k d.
Proof.
  destruct (eqb_spec k k') as [->|Hne].
  - apply get_set_same.
  - apply get_set_other; assumption.
Qed.

Lemma get_None_keys k d : PyDict.get k d = None <-> ~ In k (PyDict.keys d).
Proof.
  induction d as [|[k' v'] d IH]; simpl.
  - tauto.
  - destruct (eqb_spec k k') as [->|Hne].
    + split; [discriminate | intros H; exfalso; apply H; left; reflexivity].
    + rewrite IH; split.
      * intros H [E|Hin]; [congruence | contradiction].
      * intros H Hin; apply H; right; assumption.
Qed.

Lemma contains_keys k d : PyDict.contains k d = true <-> In k (PyDict.keys d).
Proof.
  unfold PyDict.contains.
  destruct (PyDict.get k d) eqn:E.
  - split; [intros _ | reflexivity].
    destruct (in_dec (list_eq_dec N.eq_dec) k (PyDict.keys d)) as [Hin|Hnin];
      [assumption | apply get_None_keys in Hnin; congruence].
  - apply get_None_keys in E; split; [discriminate | contradiction].
Qed.

Lemma set_absent k v d :
  PyDict.get k d = None -> PyDict.set k v d = d ++ [(k, v)].
Proof.
  induction d as [|[k' v'] d IH]; simpl; [reflexivity|].
  destruct (PyStr.eqb k k'); [discriminate|].
  intros H; rewrite IH by assumption; reflexivity.
Qed.

Lemma keys_set_present k v d :
  PyDict.contains k d = true -> PyDict.keys (PyDict.set k v d) = PyDict.keys d.
Proof.
  unfold PyDict.contains.
  induction d as [|[k' v'] d IH]; simpl; [discriminate|].
  destruct (PyStr.eqb k k'); simpl; [reflexivity|].
  intros H; rewrite IH by assumption; reflexivity.
Qed.

Lemma keys_set k v d :
  PyDict.keys (PyDict.set k v d)
  = if PyDict.contains k d then PyDict.keys d else PyDict.keys d ++ [k].
Proof.
  destruct (PyDict.contains k d) eqn:E.
  - apply keys_set_present; assumption.
  - unfold PyDict.contains in E.
    destruct (PyDict.get k d) eqn:G; [discriminate|].
    rewrite set_absent by assumption.
    unfold PyDict.keys; rewrite map_app; reflexivity.
Qed.

Lemma NoDup_set k v d :
  NoDup (PyDict.keys d) -> NoDup (PyDict.keys (PyDict.set k v d)).
Proof.
  intros Hd; rewrite keys_set.
  destruct (PyDict.contains k d) eqn:E; [assumption|].
  apply NoDup_app; [assumption | constructor; [intros [] | constructor] |].
  intros x Hx [<-|[]].
  apply contains_keys in Hx; congruence.
Qed.

Lemma NoDup_update d (other : list (str * V)) :
  NoDup (PyDict.keys d) -> NoDup (PyDict.keys (PyDict.update d other)).
Proof.
  revert d; induction other as [|[k v] other IH]; intros d Hd; simpl.
  - assumption.
  - apply IH, NoDup_set; assumption.
Qed.

Lemma NoDup_of_items (items : list (str * V)) :
  NoDup (PyDict.keys (PyDict.of_items items)).
Proof. apply NoDup_update; constructor. Qed.

(** [update] lets the entries of [other] win. *)
Lemma get_update k d (other : dict V) :
  NoDup (PyDict.keys other) ->
  PyDict.get k (PyDict.update d other)
  = match PyDict.get k other with
    | Some v => Some v
    | None => PyDict.get k d
    end.
Proof.
  revert d; induction other as [|[k' v'] other IH]; intros d Hnd; simpl.
  - reflexivity.
  - inversion Hnd as [|? ? Hnotin Hnd']; subst.
    unfold PyDict.update in IH |- *; simpl.
    rewrite IH by assumption.
    destruct (eqb_spec k k') as [->|Hne].
    + apply get_None_keys in Hnotin; rewrite Hnotin.
      apply get_set_same.
    + destruct (PyDict.get k other); [reflexivity|].
      apply get_set_other; assumption.
Qed.

Lemma update_fresh d (other : list (str * V)) :
  NoDup (PyDict.keys (d ++ other)) -> PyDict.update d other = d ++ other.
Proof.
  revert d; induction other as [|[k v] other IH]; intros d Hnd.
  - simpl; rewrite app_nil_r; reflexivity.
  - unfold PyDict.update in *; simpl.
    assert (Hk : PyDict.get k d = None).
    { apply get_None_keys; intros Hin.
      unfold PyDict.keys in Hnd; rewrite map_app in Hnd; simpl in Hnd.
      apply NoDup_remove_2 in Hnd; apply Hnd, in_or_app; left; exact Hin. }
    rewrite set_absent by assumption.
    rewrite IH; rewrite <- app_assoc; [reflexivity | exact Hnd].
Qed.

(** [dict(items)] is a plain copy when no key occurs twice. *)
Lemma of_items_id (items : list (str * V)) :
  NoDup (PyDict.keys items) -> PyDict.of_items items = items.
Proof. intros H; apply (update_fresh []); exact H. Qed.



Lemma NoDup_fold_first d (items : list (str * V)) :
  NoDup (PyDict.keys d) ->
  NoDup (PyDict.keys
    (fold_left
       (fun acc kv =>
          if PyDict.contains (fst kv) acc then acc
          else PyDict.set (fst kv) (snd kv) acc)
       items d)).
Proof.
  revert d; induction items as [|[k v] items IH]; intros d Hd; simpl.
  - assumption.
  - apply IH; destruct (PyDict.contains k d); [assumption | apply NoDup_set, Hd].
Qed.

Lemma NoDup_of_mapping (items : list (str * V)) :
  NoDup (PyDict.keys (PyDict.of_mapping items)).
Proof. apply NoDup_fold_first; constructor. Qed.



Lemma count_absent k d : PyDict.get k d = None -> PyDict.count k d = 0%nat.
Proof.
  unfold PyDict.count.
  induction d as [|[k' v'] d IH]; simpl; [reflexivity|].
  destruct (PyStr.eqb k k'); [discriminate | assumption].
Qed.

Lemma count_NoDup k d :
  NoDup (PyDict.keys d) ->
  PyDict.count k d = if PyDict.contains k d then 1%nat else 0%nat.
Proof.
  unfold PyDict.contains.
  induction d as [|[k' v'] d IH]; simpl; intros Hnd; [reflexivity|].
  inversion Hnd as [|? ? Hnotin Hnd']; subst.
  unfold PyDict.count in *; simpl.
  destruct (eqb_spec k k') as [->|Hne]; simpl.
  - apply get_None_keys in Hnotin.
    apply count_absent in Hnotin; unfold PyDict.count in Hnotin.
    rewrite Hnotin; reflexivity.
  - apply IH; assumption.
Qed.


Lemma keys_pop_incl k d x :
  In x (PyDict.keys (snd (PyDict.pop k d))) -> In x (PyDict.keys d).
Proof.
  induction d as [|[k' v'] d IH]; simpl; [tauto|].
  destruct (PyStr.eqb k k'); simpl; [tauto|].
  destruct (PyDict.pop k d) as [r d'']; simpl in *.
  intros [E|Hin]; [left; exact E | right; apply IH; exact Hin].
Qed.

Lemma NoDup_pop k d :
  NoDup (PyDict.keys d) -> NoDup (PyDict.keys (snd (PyDict.pop k d))).
Proof.
  induction d as [|[k' v'] d IH]; simpl; intros Hnd; [constructor|].
  inversion Hnd as [|? ? Hnotin Hnd']; subst.
  destruct (PyStr.eqb k k'); simpl; [assumption|].
  specialize (IH Hnd').
  pose proof (keys_pop_incl k d k') as Hincl.
  destruct (PyDict.pop k d) as [r d'']; simpl in *.
  constructor; [intros Hin; apply Hnotin, Hincl, Hin | exact IH].
Qed.

Lemma get_pop k k' d :
  NoDup (PyDict.keys d) ->
  PyDict.get k (snd (PyDict.pop k' d))
  = if PyStr.eqb k k' then None else PyDict.get k d.
Proof.
  induction d as [|[k0 v0] d IH]; simpl; intros Hnd.
  - destruct (PyStr.eqb k k'); reflexivity.
  - inversion Hnd as [|? ? Hnotin Hnd']; subst.
    specialize (IH Hnd').
    destruct (eqb_spec k' k0) as [->|Hk0]; simpl.
    + destruct (eqb_spec k k0) as [->|Hne]; [|reflexivity].
      apply get_None_keys; assumption.
    + destruct (PyDict.pop k' d) as [r d'']; simpl in *.
      destruct (eqb_spec k k0) as [->|Hne].
      * apply not_eq_sym, eqb_neq in Hk0; rewrite Hk0; reflexivity.
      * exact IH.
Qed.

(** Popping a list of names, one after the other. *)
Local Notation pop_all names d :=
  (fold_left (fun header _header => snd (PyDict.pop _header header)) names d).

Lemma NoDup_pop_all names d :
  NoDup (PyDict.keys d) -> NoDup (PyDict.keys (pop_all names d)).
Proof.
  revert d; induction names as [|n names IH]; intros d Hnd; simpl;
    [assumption | apply IH, NoDup_pop; assumption].
Qed.

Lemma get_pop_all k names d :
  NoDup (PyDict.keys d) ->
  PyDict.get k (pop_all names d)
  = if str_in k names then None else PyDict.get k d.
Proof.
  revert d; induction names as [|n names IH]; intros d Hnd; simpl.
  - reflexivity.
  - rewrite IH by (apply NoDup_pop; assumption).
    rewrite get_pop by assumption.
    destruct (PyStr.eqb k n); simpl; [|reflexivity].
    destruct (str_in k names); reflexivity.
Qed.


End Facts.

End PyDictFacts.

(** ** Facts about the functions of [utils.py] *)

Module UtilsFacts.
Import PyStrFacts PyDictFacts.

Lemma keys_update (V : Type) (d : dict V) (other : list (str * V)) (k : str) :
  In k (PyDict.keys (PyDict.update d other))
  <-> In k (PyDict.keys d) \/ In k (PyDict.keys other).
Proof.
  revert d; induction other as [|[k' v'] other IH]; intros d; simpl.
  - tauto.
  - unfold PyDict.update in *; simpl; rewrite IH, keys_set.
    destruct (PyDict.contains k' d) eqn:E.
    + apply contains_keys in E.
      split; [tauto | intros [H|[<-|H]]; auto].
    + rewrite in_app_iff; simpl; tauto.
Qed.

Lemma get_of_items_None (V : Type) (items : list (str * V)) (k : str) :
  PyDict.get k (PyDict.of_items items) = None <-> ~ In k (PyDict.keys items).
Proof.
  rewrite get_None_keys; unfold PyDict.of_items; rewrite keys_update; simpl; tauto.
Qed.

(** What [extract_header] keeps: the copied headers, minus the names
    of a non-empty skip list. *)
Lemma get_extract_header (E : Type) `{Entity E} (entity : E)
    (skip_headers : option (list str)) (k : str) :
  PyDict.get k (extract_header entity skip_headers)
  = if str_in k (match skip_headers with Some names => names | None => [] end)
    then None
    else PyDict.get k (PyDict.of_mapping (entity_headers entity)).
Proof.
  unfold extract_header.
  destruct skip_headers as [[|n names]|]; try reflexivity.
  apply get_pop_all, NoDup_of_mapping.
Qed.

Lemma NoDup_extract_header (E : Type) `{Entity E} (entity : E)
    (skip_headers : option (list str)) :
  NoDup (PyDict.keys (extract_header entity skip_headers)).
Proof.
  unfold extract_header.
  destruct skip_headers as [[|n names]|]; try apply NoDup_of_mapping.
  apply NoDup_pop_all, NoDup_of_mapping.
Qed.

(** The address when the socket pair, [ip], [port] and [remote_addr]
    decide. *)
Lemma client_ip_without_forwarded (request : Request.t) :
  py_truthy (Request.forwarded request) = false ->
  _get_client_ip request
  = match Request.socket request with
    | (None, None) =>
        if str_truthy (Request.ip request) && int_truthy (Request.port request)
        then Return (host_port (Request.ip request) (Request.port request))
        else Return (Request.remote_addr request)
    | (host, port) => Return (host_port host port)
    end.
Proof. intros Hfwd; unfold _get_client_ip; rewrite Hfwd; reflexivity. Qed.

(** The address when [forwarded] is a non-empty string. *)
Lemma client_ip_forwarded_text (request : Request.t) (value : str) :
  Request.forwarded request = VStr value ->
  PyStr.truthy value = true ->
  _get_client_ip request = Return (PyStr.before COMMA value).
Proof.
  intros Hfwd Htruthy; unfold _get_client_ip; rewrite Hfwd; simpl.
  rewrite Htruthy.
  destruct (split_first COMMA value) as [rest ->]; reflexivity.
Qed.

(** A [forwarded] that is truthy and not a string has no [split]. *)
Lemma client_ip_forwarded_other (request : Request.t) :
  py_truthy (Request.forwarded request) = true ->
  (forall value, Request.forwarded request <> VStr value) ->
  _get_client_ip request = Raise AttributeError.
Proof.
  intros Hfwd Hother; unfold _get_client_ip; rewrite Hfwd.
  destruct (Request.forwarded request); try reflexivity.
  exfalso; eapply Hother; reflexivity.
Qed.

(** [_get_client_ip] raises nothing else, and only then. *)
Lemma client_ip_raises (request : Request.t) (e : exn) :
  _get_client_ip request = Raise e ->
  e = AttributeError
  /\ py_truthy (Request.forwarded request) = true
  /\ forall value, Request.forwarded request <> VStr value.
Proof.
  destruct (py_truthy (Request.forwarded request)) eqn:Hfwd.
  - destruct (Request.forwarded request) as [| | |value|] eqn:Hval;
      try (rewrite client_ip_forwarded_other by (rewrite ?Hval; congruence);
           intros Hraise; inversion Hraise; repeat split; congruence).
    rewrite (client_ip_forwarded_text request value) by assumption.
    discriminate.
  - rewrite client_ip_without_forwarded by assumption.
    destruct (Request.socket request) as [[host|] [port|]]; try discriminate.
    destruct (str_truthy _ && int_truthy _); discriminate.
Qed.

(** Decides the [in] tests on dictionaries whose keys are literals. *)
Ltac eval_contains :=
  repeat match goal with
  | |- context [PyDict.contains ?k ?d] =>
      let b := eval lazy in (PyDict.contains k d) in
      change (PyDict.contains k d) with b
  end;
  cbn [negb]; cbv iota.

(** Keys stay unique through assignments to a fresh dictionary. *)
Ltac wf_dict :=
  eval_contains; repeat apply NoDup_set;
  first [apply NoDup_of_items | constructor].

Section Info.
Variable HTTP_WITH_BODY : list str.
Variable get_url_dict : str -> pyval.

(** [get_request_info] raises what [_get_client_ip] raises; otherwise
    it returns a dictionary with unique keys and these entries. *)
Lemma request_info_summary (config : Config) (request : Request.t)
    (skip_headers : option (list str)) :
  match _get_client_ip request with
  | Return address =>
      exists result,
        get_request_info HTTP_WITH_BODY get_url_dict config request skip_headers
        = Return result
        /\ NoDup (PyDict.keys result)
        /\ PyDict.get (lit "body") result
           = Some (VStr
               (if str_in (Request.method request) HTTP_WITH_BODY
                   && capture_body config
                then match Utf8.decode_points (Request.body request) with
                     | Some decoded => decoded
                     | None =>
                         if discarded_type (Request.content_type request)
                         then DISCARDED else REDACTED
                     end
                else REDACTED))
        /\ PyDict.get (lit "headers") result
           = (if capture_headers config
              then Some (VDict (extract_header request skip_headers))
              else None)
        /\ PyDict.get (lit "env") result
           = Some (VDict
               (PyDict.update (PyDict.of_items (get_env request))
                  (PyDict.of_items (Request.app_config request))))
  | Raise e =>
      get_request_info HTTP_WITH_BODY get_url_dict config request skip_headers
      = Raise e
  end.
Proof.
  unfold get_request_info, Utf8.decode.
  destruct (_get_client_ip request) as [address|e]; cbn [bind]; [|reflexivity].
  generalize (VDict (extract_header request skip_headers)) as hdrs.
  generalize (VDict (PyDict.update (PyDict.of_items (get_env request))
                (PyDict.of_items (Request.app_config request)))) as env.
  intros env hdrs.
  destruct (str_in (Request.method request) HTTP_WITH_BODY);
    destruct (capture_body config);
    destruct (capture_headers config);
    destruct (discarded_type (Request.content_type request));
    destruct (Utf8.decode_points (Request.body request)) as [decoded|];
    cbn [andb bind try_except];
    (eexists; split; [reflexivity|]);
    (split; [wf_dict | repeat split; reflexivity]).
Qed.

(** The entries that do not depend on the body. *)
Lemma request_info_entries (config : Config) (request : Request.t)
    (skip_headers : option (list str)) :
  match _get_client_ip request with
  | Return address =>
      exists result,
        get_request_info HTTP_WITH_BODY get_url_dict config request skip_headers
        = Return result
        /\ PyDict.keys result
           = [lit "env"; lit "method"; lit "socket"; lit "cookies"]
             ++ (if capture_headers config then [lit "headers"] else [])
             ++ [lit "body"; lit "url"]
        /\ PyDict.get (lit "method") result = Some (VStr (Request.method request))
        /\ PyDict.get (lit "cookies") result = Some (Request.cookies request)
        /\ PyDict.get (lit "url") result
           = Some (get_url_dict (Request.url request))
        /\ PyDict.get (lit "socket") result
           = Some (VDict
               [ (lit "remote_address", VStr address);
                 (lit "encrypted",
                   VBool (str_in (Request.scheme request)
                            [lit "https"; lit "wss"])) ])
  | Raise e =>
      get_request_info HTTP_WITH_BODY get_url_dict config request skip_headers
      = Raise e
  end.
Proof.
  unfold get_request_info, Utf8.decode.
  destruct (_get_client_ip request) as [address|e]; cbn [bind]; [|reflexivity].
  generalize (VDict (extract_header request skip_headers)) as hdrs.
  generalize (VDict (PyDict.update (PyDict.of_items (get_env request))
                (PyDict.of_items (Request.app_config request)))) as env.
  intros env hdrs.
  destruct (str_in (Request.method request) HTTP_WITH_BODY);
    destruct (capture_body config);
    destruct (capture_headers config);
    destruct (discarded_type (Request.content_type request));
    destruct (Utf8.decode_points (Request.body request)) as [decoded|];
    cbn [andb bind try_except];
    (eexists; split; [reflexivity|]);
    repeat split; reflexivity.
Qed.

End Info.

(** [get_response_info] raises when the test for [octet-stream] or the
    decoding of the body raises; otherwise it returns a dictionary with
    unique keys and these entries. *)
Lemma response_info_summary (config : Config) (response : Response.t)
    (skip_headers : option (list str)) :
  match
    (if capture_body config then
       found <- str_in_text (lit "octet-stream") (Response.content_type response) ;;
       if found then Return REDACTED else Utf8.decode (Response.body response)
     else Return REDACTED)
  with
  | Return body =>
      exists result,
        get_response_info config response skip_headers = Return result
        /\ NoDup (PyDict.keys result)
        /\ PyDict.get (lit "body") result = Some (VStr body)
        /\ PyDict.get (lit "headers") result
           = (if capture_headers config
              then Some (VDict (extract_header response skip_headers))
              else None)
        /\ PyDict.keys result
           = [lit "cookies"]
             ++ (if is_integer (Response.status response)
                 then [lit "status_code"] else [])
             ++ (if capture_headers config then [lit "headers"] else [])
             ++ [lit "body"]
        /\ PyDict.get (lit "cookies") result = Some (Response.cookies response)
        /\ PyDict.get (lit "status_code") result
           = (if is_integer (Response.status response)
              then Some (Response.status response) else None)
  | Raise e => get_response_info config response skip_headers = Raise e
  end.
Proof.
  unfold get_response_info, Utf8.decode, str_in_text.
  generalize (VDict (extract_header response skip_headers)) as hdrs; intros hdrs.
  destruct (capture_body config);
    destruct (Response.content_type response) as [content_type|];
    try destruct (PyStr.contains (lit "octet-stream") content_type);
    destruct (capture_headers config);
    destruct (is_integer (Response.status response));
    destruct (Utf8.decode_points (Response.body response)) as [decoded|];
    cbn [andb negb bind];
    try reflexivity;
    (eexists; split; [reflexivity|]);
    (split; [wf_dict | repeat split; reflexivity]).
Qed.

Lemma count_present (V : Type) (k : str) (v : V) (d : dict V) :
  NoDup (PyDict.keys d) -> PyDict.get k d = Some v -> PyDict.count k d = 1%nat.
Proof.
  intros Hnd Hget; rewrite count_NoDup by assumption.
  unfold PyDict.contains; rewrite Hget; reflexivity.
Qed.

Lemma markers_differ : DISCARDED <> REDACTED.
Proof. discriminate. Qed.

End UtilsFacts.

(** ** The request and response payloads

    [get_request_info] builds its payload after [_get_client_ip] has
    returned; when that call raises, the exception passes through and
    there is no payload. *)

Import PyStrFacts PyDictFacts UtilsFacts.

Section Payload.

Variable HTTP_WITH_BODY : list str.
Variable get_url_dict : str -> pyval.

Local Notation get_request_info :=
  (get_request_info HTTP_WITH_BODY get_url_dict).

(** C2, as the code has it: a request body that is not UTF-8 never
    makes [get_request_info] raise; the reported body is then
    ["[DISCARDED]"] when the decoding was attempted on a multipart or
    octet-stream request, and ["[REDACTED]"] in every other case.  The
    only exception that passes through is one that [_get_client_ip]
    raised before the body was looked at. *)
Theorem request_decode_failure_recovered
    (config : Config) (request : Request.t) (skip_headers : option (list str)) :
  Utf8.decode (Request.body request) = Raise UnicodeDecodeError ->
  match _get_client_ip request with
  | Return _ =>
      exists result,
        get_request_info config request skip_headers = Return result
        /\ PyDict.get (lit "body") result
           = Some (VStr
               (if str_in (Request.method request) HTTP_WITH_BODY
                   && capture_body config
                   && discarded_type (Request.content_type request)
                then DISCARDED else REDACTED))
  | Raise e => get_request_info config request skip_headers = Raise e
  end.
Proof.
  intros Hfail.
  pose proof (request_info_summary HTTP_WITH_BODY get_url_dict
                config request skip_headers) as Hsum.
  destruct (_get_client_ip request) as [address|e]; [|exact Hsum].
  destruct Hsum as (result & Hrun & _ & Hbody & _).
  exists result; split; [exact Hrun|].
  rewrite Hbody.
  unfold Utf8.decode in Hfail.
  destruct (Utf8.decode_points (Request.body request)); [discriminate|].
  destruct (str_in _ _ && capture_body config); reflexivity.
Qed.

(** C3: the dictionary returned by [get_request_info], and the one
    returned by [get_response_info], holds the key ["body"] exactly once,
    and the value under it is the decoded body, ["[DISCARDED]"] or
    ["[REDACTED]"].  [get_request_info] returns unless [_get_client_ip]
    raised; [get_response_info] returns unless, with body capture
    switched on, the content type is [None] or the body it decodes is not
    UTF-8. *)
Theorem body_key_exactly_once
    (config : Config) (request : Request.t) (response : Response.t)
    (skip_headers : option (list str)) :
  match _get_client_ip request with
  | Return _ =>
      exists result text,
        get_request_info config request skip_headers = Return result
        /\ PyDict.count (lit "body") result = 1%nat
        /\ PyDict.get (lit "body") result = Some (VStr text)
        /\ (Utf8.decode (Request.body request) = Return text
            \/ text = DISCARDED \/ text = REDACTED)
  | Raise e => get_request_info config request skip_headers = Raise e
  end
  /\ match get_response_info config response skip_headers with
     | Return result =>
         exists text,
           PyDict.count (lit "body") result = 1%nat
           /\ PyDict.get (lit "body") result = Some (VStr text)
           /\ (Utf8.decode (Response.body response) = Return text
               \/ text = DISCARDED \/ text = REDACTED)
     | Raise e =>
         capture_body config = true
         /\ ((e = TypeError /\ Response.content_type response = None)
             \/ (e = UnicodeDecodeError
                 /\ (exists content_type,
                       Response.content_type response = Some content_type
                       /\ PyStr.contains (lit "octet-stream") content_type = false)
                 /\ Utf8.decode (Response.body response)
                    = Raise UnicodeDecodeError))
     end.
Proof.
  split.
  - pose proof (request_info_summary HTTP_WITH_BODY get_url_dict
                  config request skip_headers) as Hsum.
    destruct (_get_client_ip request) as [address|e]; [|exact Hsum].
    destruct Hsum as (result & Hrun & Hnd & Hbody & _).
    eexists result, _; split; [exact Hrun|].
    split; [eapply count_present; eassumption|].
    split; [exact Hbody|].
    unfold Utf8.decode.
    destruct (str_in _ _ && capture_body config); [|auto].
    destruct (Utf8.decode_points (Request.body request)); [auto|].
    destruct (discarded_type _); auto.
  - pose proof (response_info_summary config response skip_headers) as Hsum.
    unfold Utf8.decode, str_in_text in *.
    destruct (capture_body config); cbn [bind] in Hsum.
    + destruct (Response.content_type response) as [content_type|];
        cbn [bind] in Hsum.
      * destruct (PyStr.contains (lit "octet-stream") content_type) eqn:Hfound.
        -- destruct Hsum as (result & -> & Hnd & Hbody & _).
           exists REDACTED; split; [eapply count_present; eassumption|]; auto.
        -- destruct (Utf8.decode_points (Response.body response)) as [decoded|].
           ++ destruct Hsum as (result & -> & Hnd & Hbody & _).
              exists decoded; split; [eapply count_present; eassumption|]; auto.
           ++ rewrite Hsum; split; [reflexivity|]; right.
              split; [reflexivity|]; split; [|reflexivity].
              exists content_type; auto.
      * rewrite Hsum; auto.
    + destruct Hsum as (result & -> & Hnd & Hbody & _).
      exists REDACTED; split; [eapply count_present; eassumption|]; auto.
Qed.

(** C4: with body capture switched off, the body of the request
    payload is ["[REDACTED]"]. *)
Theorem request_body_redacted_when_disabled
    (config : Config) (request : Request.t) (skip_headers : option (list str)) :
  capture_body config = false ->
  match _get_client_ip request with
  | Return _ =>
      exists result,
        get_request_info config request skip_headers = Return result
        /\ PyDict.get (lit "body") result = Some (VStr REDACTED)
  | Raise e => get_request_info config request skip_headers = Raise e
  end.
Proof.
  intros Hoff.
  pose proof (request_info_summary HTTP_WITH_BODY get_url_dict
                config request skip_headers) as Hsum.
  destruct (_get_client_ip request) as [address|e]; [|exact Hsum].
  destruct Hsum as (result & Hrun & _ & Hbody & _).
  exists result; split; [exact Hrun|].
  rewrite Hbody, Hoff, andb_false_r; reflexivity.
Qed.

(** C5: for a body-bearing method, with body capture switched on, a
    content type that is neither multipart nor octet-stream and a body
    that is valid UTF-8, the body of the request payload is the decoded
    text. *)
Theorem request_body_decoded
    (config : Config) (request : Request.t) (skip_headers : option (list str))
    (text : str) :
  str_in (Request.method request) HTTP_WITH_BODY = true ->
  capture_body config = true ->
  discarded_type (Request.content_type request) = false ->
  Utf8.decode (Request.body request) = Return text ->
  match _get_client_ip request with
  | Return _ =>
      exists result,
        get_request_info config request skip_headers = Return result
        /\ PyDict.get (lit "body") result = Some (VStr text)
  | Raise e => get_request_info config request skip_headers = Raise e
  end.
Proof.
  intros Hmethod Hon _ Hdecode.
  pose proof (request_info_summary HTTP_WITH_BODY get_url_dict
                config request skip_headers) as Hsum.
  destruct (_get_client_ip request) as [address|e]; [|exact Hsum].
  destruct Hsum as (result & Hrun & _ & Hbody & _).
  exists result; split; [exact Hrun|].
  rewrite Hbody, Hmethod, Hon; simpl.
  unfold Utf8.decode in Hdecode.
  destruct (Utf8.decode_points (Request.body request)); congruence.
Qed.

(** C9: the key ["headers"] is in the request payload, and in the
    response payload, exactly when [capture_headers] is set; what it
    then holds is the copy of the headers without the names of the skip
    list. *)
Theorem headers_key_follows_config
    (config : Config) (request : Request.t) (response : Response.t)
    (skip_headers : option (list str)) :
  match _get_client_ip request with
  | Return _ =>
      exists result,
        get_request_info config request skip_headers = Return result
        /\ PyDict.get (lit "headers") result
           = if capture_headers config
             then Some (VDict (extract_header request skip_headers))
             else None
  | Raise e => get_request_info config request skip_headers = Raise e
  end
  /\ match get_response_info config response skip_headers with
     | Return result =>
         PyDict.get (lit "headers") result
         = if capture_headers config
           then Some (VDict (extract_header response skip_headers))
           else None
     | Raise e =>
         capture_body config = true
         /\ ((e = TypeError /\ Response.content_type response = None)
             \/ Utf8.decode (Response.body response) = Raise e)
     end
  /\ (forall name,
        let listed :=
          str_in name
            (match skip_headers with Some names => names | None => [] end) in
        PyDict.get name (extract_header request skip_headers)
        = (if listed then None
           else PyDict.get name (PyDict.of_mapping (Request.headers request)))
        /\ PyDict.get name (extract_header response skip_headers)
           = (if listed then None
              else PyDict.get name (PyDict.of_mapping (Response.headers response)))).
Proof.
  split; [|split].
  - pose proof (request_info_summary HTTP_WITH_BODY get_url_dict
                  config request skip_headers) as Hsum.
    destruct (_get_client_ip request) as [address|e]; [|exact Hsum].
    destruct Hsum as (result & Hrun & _ & _ & Hheaders & _).
    exists result; auto.
  - pose proof (response_info_summary config response skip_headers) as Hsum.
    unfold str_in_text in Hsum.
    destruct (capture_body config); cbn [bind] in Hsum.
    + destruct (Response.content_type response) as [content_type|];
        cbn [bind] in Hsum.
      * destruct (PyStr.contains (lit "octet-stream") content_type).
        -- destruct Hsum as (result & -> & _ & _ & Hheaders & _); exact Hheaders.
        -- destruct (Utf8.decode (Response.body response)) as [decoded|e].
           ++ destruct Hsum as (result & -> & _ & _ & Hheaders & _); exact Hheaders.
           ++ rewrite Hsum; auto.
      * rewrite Hsum; auto.
    + destruct Hsum as (result & -> & _ & _ & Hheaders & _); exact Hheaders.
  - intros name listed; split; apply get_extract_header.
Qed.

(** C10: a key that the application's configuration shares with the
    pairs of [get_env] carries, in the ["env"] mapping of the request
    payload, the value of the configuration. *)
Theorem app_config_overrides_env
    (config : Config) (request : Request.t) (skip_headers : option (list str))
    (key : str) (from_env from_app : pyval) :
  PyDict.get key (PyDict.of_items (get_env request)) = Some from_env ->
  PyDict.get key (PyDict.of_items (Request.app_config request)) = Some from_app ->
  match _get_client_ip request with
  | Return _ =>
      exists result env,
        get_request_info config request skip_headers = Return result
        /\ PyDict.get (lit "env") result = Some (VDict env)
        /\ PyDict.get key env = Some from_app
  | Raise e => get_request_info config request skip_headers = Raise e
  end.
Proof.
  intros _ Happ.
  pose proof (request_info_summary HTTP_WITH_BODY get_url_dict
                config request skip_headers) as Hsum.
  destruct (_get_client_ip request) as [address|e]; [|exact Hsum].
  destruct Hsum as (result & Hrun & _ & _ & _ & Henv).
  eexists result, _; split; [exact Hrun|]; split; [exact Henv|].
  rewrite get_update by apply NoDup_of_items.
  rewrite Happ; reflexivity.
Qed.

End Payload.

(** ** The helpers: environment pairs and headers *)

Section Helpers.

Lemma get_env_loop_names (request : Request.t) (names : list str) :
  List.map fst (get_env_loop request names)
  = List.filter (hasattr request) names.
Proof.
  induction names as [|name names IH]; simpl; [reflexivity|].
  unfold hasattr, PyDict.contains, getattr in *.
  destruct (PyDict.get name (Request.attrs request)); simpl; congruence.
Qed.

Lemma get_env_loop_In (request : Request.t) (names : list str)
    (name : str) (value : pyval) :
  In (name, value) (get_env_loop request names)
  <-> In name names /\ getattr request name = Some value.
Proof.
  induction names as [|n names IH]; simpl; [tauto|].
  destruct (getattr request n) as [v|] eqn:E; simpl; rewrite IH; split.
  - intros [H|H]; [inversion H; subst; auto | tauto].
  - intros [[->|H] G]; [left; congruence | tauto].
  - tauto.
  - intros [[->|H] G]; [congruence | tauto].
Qed.

Lemma ENV_ATTRS_NoDup : NoDup ENV_ATTRS.
Proof.
  unfold ENV_ATTRS; repeat constructor; simpl; intuition discriminate.
Qed.

(** C8: [get_env] yields, in the order of the fixed list
    [server_name], [server_port], [version], one pair for each of these
    attributes that the request has and none for the others; a request
    without [version] yields the pairs of the other two only. *)
Theorem get_env_pairs (request : Request.t) :
  List.map fst (get_env request) = List.filter (hasattr request) ENV_ATTRS
  /\ NoDup (List.map fst (get_env request))
  /\ (forall name value,
        In (name, value) (get_env request)
        <-> In name ENV_ATTRS /\ getattr request name = Some value)
  /\ (hasattr request (lit "version") = false ->
      get_env request
      = get_env_loop request [lit "server_name"; lit "server_port"]).
Proof.
  unfold get_env; split; [|split; [|split]].
  - apply get_env_loop_names.
  - rewrite get_env_loop_names; apply NoDup_filter, ENV_ATTRS_NoDup.
  - intros name value; apply get_env_loop_In.
  - unfold hasattr, PyDict.contains, ENV_ATTRS; simpl; unfold getattr.
    destruct (PyDict.get (lit "version") (Request.attrs request));
      [discriminate | reflexivity].
Qed.


End Helpers.

(** ** The claims on the sample inputs *)

(** C1: a [POST] of [b"abc"] as [application/octet-stream], with body
    capture switched on, is reported with the body ["abc"]: the marker
    ["[DISCARDED]"] is assigned and then overwritten by the decoded
    text. *)
Theorem discarded_marker_overwritten :
  str_in (Request.method Samples.binary_upload) Samples.HTTP_WITH_BODY = true
  /\ capture_body Samples.capture_all = true
  /\ discarded_type (Request.content_type Samples.binary_upload) = true
  /\ exists result,
       get_request_info Samples.HTTP_WITH_BODY Samples.get_url_dict
         Samples.capture_all Samples.binary_upload None = Return result
       /\ PyDict.get (lit "body") result = Some (VStr (lit "abc"))
       /\ lit "abc" <> DISCARDED.
Proof.
  repeat split; try reflexivity.
  eexists; split; [vm_compute; reflexivity|].
  split; [reflexivity | discriminate].
Qed.

(** C2 fails twice: a request of octet-stream type whose body is not
    UTF-8 is reported with ["[DISCARDED]"], and a response whose body is
    not UTF-8 makes [get_response_info] raise. *)
Lemma decode_failure_not_always_redacted :
  (Utf8.decode (Request.body Samples.binary_garbage) = Raise UnicodeDecodeError
   /\ exists result,
        get_request_info Samples.HTTP_WITH_BODY Samples.get_url_dict
          Samples.capture_all Samples.binary_garbage None = Return result
        /\ PyDict.get (lit "body") result = Some (VStr DISCARDED)
        /\ PyDict.get (lit "body") result <> Some (VStr REDACTED))
  /\ (Utf8.decode (Response.body Samples.garbage_response) = Raise UnicodeDecodeError
      /\ get_response_info Samples.capture_all Samples.garbage_response None
         = Raise UnicodeDecodeError).
Proof.
  split; split; try reflexivity.
  eexists; split; [vm_compute; reflexivity|].
  split; [reflexivity | discriminate].
Qed.


Lemma request_decode_failure_recovered_witness :
  Utf8.decode (Request.body Samples.text_garbage) = Raise UnicodeDecodeError
  /\ exists result,
       get_request_info Samples.HTTP_WITH_BODY Samples.get_url_dict
         Samples.capture_all Samples.text_garbage None = Return result
       /\ PyDict.get (lit "body") result = Some (VStr REDACTED).
Proof.
  split; [reflexivity|].
  apply (request_decode_failure_recovered Samples.HTTP_WITH_BODY
           Samples.get_url_dict Samples.capture_all Samples.text_garbage None).
  reflexivity.
Defined.

Lemma request_body_redacted_when_disabled_witness :
  capture_body Samples.capture_nothing = false
  /\ exists result,
       get_request_info Samples.HTTP_WITH_BODY Samples.get_url_dict
         Samples.capture_nothing Samples.text_upload None = Return result
       /\ PyDict.get (lit "body") result = Some (VStr REDACTED).
Proof.
  split; [reflexivity|].
  apply (request_body_redacted_when_disabled Samples.HTTP_WITH_BODY
           Samples.get_url_dict Samples.capture_nothing Samples.text_upload None).
  reflexivity.
Defined.

Lemma request_body_decoded_witness :
  exists result,
    get_request_info Samples.HTTP_WITH_BODY Samples.get_url_dict
      Samples.capture_all Samples.text_upload None = Return result
    /\ PyDict.get (lit "body") result = Some (VStr (lit "abc")).
Proof.
  apply (request_body_decoded Samples.HTTP_WITH_BODY Samples.get_url_dict
           Samples.capture_all Samples.text_upload None (lit "abc"));
    reflexivity.
Defined.

Lemma app_config_overrides_env_witness :
  exists result env,
    get_request_info Samples.HTTP_WITH_BODY Samples.get_url_dict
      Samples.capture_all Samples.text_upload None = Return result
    /\ PyDict.get (lit "env") result = Some (VDict env)
    /\ PyDict.get (lit "server_name") env = Some (VStr (lit "configured")).
Proof.
  apply (app_config_overrides_env Samples.HTTP_WITH_BODY Samples.get_url_dict
           Samples.capture_all Samples.text_upload None
           (lit "server_name") (VStr (lit "localhost")) (VStr (lit "configured")));
    reflexivity.
Defined.

Lemma get_env_pairs_witness :
  hasattr Samples.text_upload (lit "version") = false
  /\ get_env Samples.text_upload
     = get_env_loop Samples.text_upload [lit "server_name"; lit "server_port"].
Proof.
  split; [reflexivity|].
  apply (get_env_pairs Samples.text_upload); reflexivity.
Defined.


(** C6: the chain does not start at the forwarded-for header.  The
    code reads [request.forwarded], which on a Sanic request is the
    dictionary of parsed proxy options, and calls [split] on it.  For a
    request that carries [X-Forwarded-For: 1.2.3.4, 5.6.7.8] and comes in
    on the socket [("9.9.9.9", 80)]: when the dictionary is not empty,
    [_get_client_ip] raises [AttributeError], and so does
    [get_request_info]; when it is empty, the address is that of the
    socket.  ["1.2.3.4"] comes out in neither case. *)
Theorem forwarded_header_not_used :
  (PyDict.get (lit "x-forwarded-for") (Request.headers MoreSamples.trusted_proxy)
   = Some (VStr (lit "1.2.3.4, 5.6.7.8"))
   /\ Request.forwarded MoreSamples.trusted_proxy
      = VDict [ (lit "for", VStr (lit "1.2.3.4")) ]
   /\ _get_client_ip MoreSamples.trusted_proxy = Raise AttributeError
   /\ get_request_info Samples.HTTP_WITH_BODY Samples.get_url_dict
        Samples.capture_all MoreSamples.trusted_proxy None
      = Raise AttributeError)
  /\ (PyDict.get (lit "x-forwarded-for")
        (Request.headers MoreSamples.untrusted_proxy)
      = Some (VStr (lit "1.2.3.4, 5.6.7.8"))
      /\ Request.forwarded MoreSamples.untrusted_proxy = VDict []
      /\ _get_client_ip MoreSamples.untrusted_proxy = Return (lit "9.9.9.9:80")
      /\ lit "9.9.9.9:80" <> lit "1.2.3.4").
Proof.
  split; repeat split; try reflexivity.
  discriminate.
Qed.

(** ** More about the request payload *)

Section RequestPayload.

Variable HTTP_WITH_BODY : list str.
Variable get_url_dict : str -> pyval.

(** X1: [get_request_info] passes on what [_get_client_ip] raises and
    otherwise returns a payload whose keys are, in this order, [env],
    [method], [socket], [cookies], then [headers] when headers are
    captured, then [body] and [url]. *)
Theorem request_info_keys (config : Config) (request : Request.t)
    (skip_headers : option (list str)) :
  match _get_client_ip request with
  | Return _ =>
      exists result,
        get_request_info HTTP_WITH_BODY get_url_dict config request skip_headers
        = Return result
        /\ PyDict.keys result
           = [lit "env"; lit "method"; lit "socket"; lit "cookies"]
             ++ (if capture_headers config then [lit "headers"] else [])
             ++ [lit "body"; lit "url"]
  | Raise e =>
      get_request_info HTTP_WITH_BODY get_url_dict config request skip_headers
      = Raise e
  end.
Proof.
  pose proof (request_info_entries HTTP_WITH_BODY get_url_dict
                config request skip_headers) as Hsum.
  destruct (_get_client_ip request) as [address|e]; [|exact Hsum].
  destruct Hsum as (result & Hrun & Hkeys & _).
  exists result; auto.
Qed.

(** X2: the payload carries the method and the cookies of the request
    as they are, and under [url] what [get_url_dict] makes of the request's
    URL, whatever the configuration. *)
Theorem request_info_copies (config : Config) (request : Request.t)
    (skip_headers : option (list str)) :
  match _get_client_ip request with
  | Return _ =>
      exists result,
        get_request_info HTTP_WITH_BODY get_url_dict config request skip_headers
        = Return result
        /\ PyDict.get (lit "method") result
           = Some (VStr (Request.method request))
        /\ PyDict.get (lit "cookies") result = Some (Request.cookies request)
        /\ PyDict.get (lit "url") result
           = Some (get_url_dict (Request.url request))
  | Raise e =>
      get_request_info HTTP_WITH_BODY get_url_dict config request skip_headers
      = Raise e
  end.
Proof.
  pose proof (request_info_entries HTTP_WITH_BODY get_url_dict
                config request skip_headers) as Hsum.
  destruct (_get_client_ip request) as [address|e]; [|exact Hsum].
  destruct Hsum as (result & Hrun & _ & Hmethod & Hcookies & Hurl & _).
  exists result; auto.
Qed.

(** X3: the [socket] entry holds the address [_get_client_ip] returns
    and the flag [encrypted], which is set exactly for the schemes
    [https] and [wss]. *)
Theorem request_info_socket (config : Config) (request : Request.t)
    (skip_headers : option (list str)) :
  match _get_client_ip request with
  | Return address =>
      exists result encrypted,
        get_request_info HTTP_WITH_BODY get_url_dict config request skip_headers
        = Return result
        /\ PyDict.get (lit "socket") result
           = Some (VDict [ (lit "remote_address", VStr address);
                           (lit "encrypted", VBool encrypted) ])
        /\ (encrypted = true
            <-> Request.scheme request = lit "https"
                \/ Request.scheme request = lit "wss")
  | Raise e =>
      get_request_info HTTP_WITH_BODY get_url_dict config request skip_headers
      = Raise e
  end.
Proof.
  pose proof (request_info_entries HTTP_WITH_BODY get_url_dict
                config request skip_headers) as Hsum.
  destruct (_get_client_ip request) as [address|e]; [|exact Hsum].
  destruct Hsum as (result & Hrun & _ & _ & _ & _ & Hsocket).
  eexists result, _; split; [exact Hrun|]; split; [exact Hsocket|].
  rewrite str_in_In; simpl; intuition congruence.
Qed.

(** X4: for a body-bearing method with body capture switched on, a
    body that is valid UTF-8 is reported decoded whatever the content type
    is, multipart and octet-stream included. *)
Theorem request_body_decoded_for_any_type
    (config : Config) (request : Request.t) (skip_headers : option (list str))
    (text : str) :
  str_in (Request.method request) HTTP_WITH_BODY = true ->
  capture_body config = true ->
  Utf8.decode (Request.body request) = Return text ->
  match _get_client_ip request with
  | Return _ =>
      exists result,
        get_request_info HTTP_WITH_BODY get_url_dict config request skip_headers
        = Return result
        /\ PyDict.get (lit "body") result = Some (VStr text)
  | Raise e =>
      get_request_info HTTP_WITH_BODY get_url_dict config request skip_headers
      = Raise e
  end.
Proof.
  intros Hmethod Hon Hdecode.
  pose proof (request_info_summary HTTP_WITH_BODY get_url_dict
                config request skip_headers) as Hsum.
  destruct (_get_client_ip request) as [address|e]; [|exact Hsum].
  destruct Hsum as (result & Hrun & _ & Hbody & _).
  exists result; split; [exact Hrun|].
  rewrite Hbody, Hmethod, Hon; simpl.
  unfold Utf8.decode in Hdecode.
  destruct (Utf8.decode_points (Request.body request)); congruence.
Qed.

(** X5: for a method that is not body-bearing the body is reported as
    ["[REDACTED]"], whatever the configuration, the content type and the
    bytes of the body. *)
Theorem request_body_redacted_for_other_methods
    (config : Config) (request : Request.t) (skip_headers : option (list str)) :
  str_in (Request.method request) HTTP_WITH_BODY = false ->
  match _get_client_ip request with
  | Return _ =>
      exists result,
        get_request_info HTTP_WITH_BODY get_url_dict config request skip_headers
        = Return result
        /\ PyDict.get (lit "body") result = Some (VStr REDACTED)
  | Raise e =>
      get_request_info HTTP_WITH_BODY get_url_dict config request skip_headers
      = Raise e
  end.
Proof.
  intros Hmethod.
  pose proof (request_info_summary HTTP_WITH_BODY get_url_dict
                config request skip_headers) as Hsum.
  destruct (_get_client_ip request) as [address|e]; [|exact Hsum].
  destruct Hsum as (result & Hrun & _ & Hbody & _).
  exists result; split; [exact Hrun|].
  rewrite Hbody, Hmethod; reflexivity.
Qed.

(** X6: for a body-bearing method with body capture switched on, a
    body of ASCII bytes is reported byte for byte; an empty body is
    reported as the empty string, not as a marker. *)
Theorem request_body_ascii_verbatim
    (config : Config) (request : Request.t) (skip_headers : option (list str)) :
  str_in (Request.method request) HTTP_WITH_BODY = true ->
  capture_body config = true ->
  Forall (fun b => Byte.to_N b < 0x80) (Request.body request) ->
  match _get_client_ip request with
  | Return _ =>
      exists result,
        get_request_info HTTP_WITH_BODY get_url_dict config request skip_headers
        = Return result
        /\ PyDict.get (lit "body") result
           = Some (VStr (List.map Byte.to_N (Request.body request)))
  | Raise e =>
      get_request_info HTTP_WITH_BODY get_url_dict config request skip_headers
      = Raise e
  end.
Proof.
  intros Hmethod Hon Hascii.
  pose proof (request_info_summary HTTP_WITH_BODY get_url_dict
                config request skip_headers) as Hsum.
  destruct (_get_client_ip request) as [address|e]; [|exact Hsum].
  destruct Hsum as (result & Hrun & _ & Hbody & _).
  exists result; split; [exact Hrun|].
  rewrite Hbody, Hmethod, Hon; simpl.
  rewrite Utf8Facts.decode_points_ascii by assumption; reflexivity.
Qed.

(** X7: when headers are not captured the skip list is not looked at:
    the request payload and the response payload are the same for any two
    skip lists. *)
Theorem skip_list_unused_without_headers
    (config : Config) (request : Request.t) (response : Response.t)
    (skip_headers skip_headers' : option (list str)) :
  capture_headers config = false ->
  get_request_info HTTP_WITH_BODY get_url_dict config request skip_headers
  = get_request_info HTTP_WITH_BODY get_url_dict config request skip_headers'
  /\ get_response_info config response skip_headers
     = get_response_info config response skip_headers'.
Proof.
  intros Hoff.
  unfold get_request_info, get_response_info.
  rewrite Hoff; split; reflexivity.
Qed.

Lemma get_env_loop_get (request : Request.t) (names : list str) (key : str) :
  PyDict.get key (get_env_loop request names)
  = if str_in key names then getattr request key else None.
Proof.
  induction names as [|n names IH]; simpl; [reflexivity|].
  destruct (getattr request n) as [v|] eqn:E; simpl.
  - destruct (eqb_spec key n) as [->|Hne]; simpl; [congruence | exact IH].
  - rewrite IH.
    destruct (eqb_spec key n) as [->|Hne]; simpl; [|reflexivity].
    rewrite E; destruct (str_in n names); reflexivity.
Qed.

(** X8: a key of the [env] mapping of the payload has the value of the
    application's configuration when the configuration has the key;
    otherwise it has the value of the request's attribute when the key is
    one of [server_name], [server_port], [version] and the request has that
    attribute; and otherwise the key is not in [env]. *)
Theorem request_info_env_lookup (config : Config) (request : Request.t)
    (skip_headers : option (list str)) :
  match _get_client_ip request with
  | Return _ =>
      exists result env,
        get_request_info HTTP_WITH_BODY get_url_dict config request skip_headers
        = Return result
        /\ PyDict.get (lit "env") result = Some (VDict env)
        /\ forall key,
             PyDict.get key env
             = match
                 PyDict.get key (PyDict.of_items (Request.app_config request))
               with
               | Some value => Some value
               | None =>
                   if str_in key ENV_ATTRS then getattr request key else None
               end
  | Raise e =>
      get_request_info HTTP_WITH_BODY get_url_dict config request skip_headers
      = Raise e
  end.
Proof.
  pose proof (request_info_summary HTTP_WITH_BODY get_url_dict
                config request skip_headers) as Hsum.
  destruct (_get_client_ip request) as [address|e]; [|exact Hsum].
  destruct Hsum as (result & Hrun & _ & _ & _ & Henv).
  eexists result, _; split; [exact Hrun|]; split; [exact Henv|].
  intros key.
  rewrite get_update by apply NoDup_of_items.
  destruct (PyDict.get key (PyDict.of_items (Request.app_config request)));
    [reflexivity|].
  rewrite of_items_id.
  - apply get_env_loop_get.
  - unfold PyDict.keys, get_env; rewrite get_env_loop_names.
    apply NoDup_filter, ENV_ATTRS_NoDup.
Qed.

End RequestPayload.

(** ** More about the response payload *)

Section ResponsePayload.

(** X9: [get_response_info] raises exactly in two cases, both with
    body capture switched on: the content type is [None], and the test
    for [octet-stream] raises [TypeError]; or the content type is a string
    without [octet-stream] and the body is not UTF-8, and the decoder
    raises [UnicodeDecodeError]. *)
Theorem response_info_raises_iff (config : Config) (response : Response.t)
    (skip_headers : option (list str)) (e : exn) :
  (get_response_info config response skip_headers = Raise e
   <-> capture_body config = true
       /\ ((Response.content_type response = None /\ e = TypeError)
           \/ (exists content_type,
                 Response.content_type response = Some content_type
                 /\ PyStr.contains (lit "octet-stream") content_type = false
                 /\ Utf8.decode (Response.body response) = Raise e)))
  /\ (get_response_info config response skip_headers = Raise e ->
      e = TypeError \/ e = UnicodeDecodeError).
Proof.
  pose proof (response_info_summary config response skip_headers) as Hsum.
  unfold Utf8.decode, str_in_text in *.
  destruct (capture_body config); cbn [bind] in Hsum.
  - destruct (Response.content_type response) as [content_type|];
      cbn [bind] in Hsum.
    + destruct (PyStr.contains (lit "octet-stream") content_type) eqn:Hfound.
      * destruct Hsum as (result & -> & _).
        split; [split; [discriminate|] | discriminate].
        intros (_ & [[Hnone _] | (ct & Hct & Hno & _)]); congruence.
      * destruct (Utf8.decode_points (Response.body response)) as [decoded|].
        -- destruct Hsum as (result & -> & _).
           split; [split; [discriminate|] | discriminate].
           intros (_ & [[Hnone _] | (ct & _ & _ & Hraise)]); congruence.
        -- rewrite Hsum; split; [split|].
           ++ intros Hraise; inversion Hraise; subst.
              split; [reflexivity|]; right; exists content_type; auto.
           ++ intros (_ & [[Hnone _] | (ct & _ & _ & Hraise)]); congruence.
           ++ intros Hraise; inversion Hraise; auto.
    + rewrite Hsum; split; [split|].
      * intros Hraise; inversion Hraise; auto.
      * intros (_ & [[_ ->] | (ct & Hct & _)]); congruence.
      * intros Hraise; inversion Hraise; auto.
  - destruct Hsum as (result & -> & _).
    split; [split; [discriminate|] | discriminate].
    intros (Hon & _); discriminate.
Qed.

(** X10: with body capture switched off, or with a content type that
    contains [octet-stream], [get_response_info] returns and reports the
    body as ["[REDACTED]"], whatever the bytes of the body are. *)
Theorem response_body_redacted (config : Config) (response : Response.t)
    (skip_headers : option (list str)) :
  capture_body config = false
  \/ (exists content_type,
        Response.content_type response = Some content_type
        /\ PyStr.contains (lit "octet-stream") content_type = true) ->
  exists result,
    get_response_info config response skip_headers = Return result
    /\ PyDict.get (lit "body") result = Some (VStr REDACTED).
Proof.
  intros Hcase.
  pose proof (response_info_summary config response skip_headers) as Hsum.
  destruct (capture_body config).
  - destruct Hcase as [Hoff | (content_type & Htype & Hfound)];
      [discriminate|].
    rewrite Htype in Hsum; cbn [str_in_text bind] in Hsum.
    rewrite Hfound in Hsum.
    destruct Hsum as (result & Hrun & _ & Hbody & _); exists result; auto.
  - destruct Hsum as (result & Hrun & _ & Hbody & _); exists result; auto.
Qed.

(** X11: with body capture switched on, a content type that does not
    contain [octet-stream] and a body that is valid UTF-8,
    [get_response_info] returns and reports the decoded body. *)
Theorem response_body_decoded (config : Config) (response : Response.t)
    (skip_headers : option (list str)) (content_type text : str) :
  capture_body config = true ->
  Response.content_type response = Some content_type ->
  PyStr.contains (lit "octet-stream") content_type = false ->
  Utf8.decode (Response.body response) = Return text ->
  exists result,
    get_response_info config response skip_headers = Return result
    /\ PyDict.get (lit "body") result = Some (VStr text).
Proof.
  intros Hon Htype Hfound Hdecode.
  pose proof (response_info_summary config response skip_headers) as Hsum.
  rewrite Hon, Htype in Hsum; cbn [str_in_text bind] in Hsum.
  rewrite Hfound, Hdecode in Hsum.
  destruct Hsum as (result & Hrun & _ & Hbody & _); exists result; auto.
Qed.

(** X12: a payload that [get_response_info] returns has the keys
    [cookies], then [status_code] when the status is an integer, then
    [headers] when headers are captured, then [body], in this order; it
    carries the cookies as they are, and the status itself under
    [status_code].  There is no payload only when, with body capture
    switched on, the content type is [None] or the decoding of the body
    raised. *)
Theorem response_info_keys (config : Config) (response : Response.t)
    (skip_headers : option (list str)) :
  match get_response_info config response skip_headers with
  | Return result =>
      PyDict.keys result
      = [lit "cookies"]
        ++ (if is_integer (Response.status response)
            then [lit "status_code"] else [])
        ++ (if capture_headers config then [lit "headers"] else [])
        ++ [lit "body"]
      /\ PyDict.get (lit "cookies") result = Some (Response.cookies response)
      /\ PyDict.get (lit "status_code") result
         = (if is_integer (Response.status response)
            then Some (Response.status response) else None)
  | Raise e =>
      capture_body config = true
      /\ ((e = TypeError /\ Response.content_type response = None)
          \/ Utf8.decode (Response.body response) = Raise e)
  end.
Proof.
  pose proof (response_info_summary config response skip_headers) as Hsum.
  unfold str_in_text in Hsum.
  destruct (capture_body config); cbn [bind] in Hsum.
  - destruct (Response.content_type response) as [content_type|];
      cbn [bind] in Hsum.
    + destruct (PyStr.contains (lit "octet-stream") content_type).
      * destruct Hsum as (result & -> & _ & _ & _ & Hkeys & Hcookies & Hstatus).
        auto.
      * destruct (Utf8.decode (Response.body response)) as [decoded|e].
        -- destruct Hsum
             as (result & -> & _ & _ & _ & Hkeys & Hcookies & Hstatus).
           auto.
        -- rewrite Hsum; auto.
    + rewrite Hsum; auto.
  - destruct Hsum as (result & -> & _ & _ & _ & Hkeys & Hcookies & Hstatus).
    auto.
Qed.

End ResponsePayload.

(** ** More about the headers *)

Section Headers.

Context {V : Type}.

Lemma filter_keep (f : str * V -> bool) (d : dict V) :
  (forall kv, In kv d -> f kv = true) -> List.filter f d = d.
Proof.
  induction d as [|kv d IH]; simpl; intros Hall; [reflexivity|].
  rewrite (Hall kv) by (left; reflexivity).
  rewrite IH; [reflexivity | intros kv' Hin; apply Hall; right; exact Hin].
Qed.

Lemma filter_twice (f g : str * V -> bool) (d : dict V) :
  List.filter f (List.filter g d) = List.filter (fun kv => g kv && f kv) d.
Proof.
  induction d as [|kv d IH]; simpl; [reflexivity|].
  destruct (g kv); simpl; [destruct (f kv)|]; rewrite IH; reflexivity.
Qed.

(** On unique keys, [pop] is a filter. *)
Lemma pop_filter (k : str) (d : dict V) :
  NoDup (PyDict.keys d) ->
  snd (PyDict.pop k d)
  = List.filter (fun kv => negb (PyStr.eqb (fst kv) k)) d.
Proof.
  induction d as [|[k' v] d IH]; simpl; intros Hnd; [reflexivity|].
  inversion Hnd as [|? ? Hnotin Hnd']; subst.
  rewrite (eqb_sym k' k).
  destruct (eqb_spec k k') as [->|Hne]; simpl.
  - symmetry; apply filter_keep; intros [k0 v0] Hin; simpl.
    apply negb_true_iff, eqb_neq; intros ->.
    apply Hnotin; exact (in_map fst _ _ Hin).
  - specialize (IH Hnd').
    destruct (PyDict.pop k d) as [r d'']; simpl in *.
    rewrite IH; reflexivity.
Qed.

Lemma pop_all_filter (names : list str) (d : dict V) :
  NoDup (PyDict.keys d) ->
  fold_left (fun header _header => snd (PyDict.pop _header header)) names d
  = List.filter (fun kv => negb (str_in (fst kv) names)) d.
Proof.
  revert d; induction names as [|n names IH]; intros d Hnd; simpl.
  - symmetry; apply filter_keep; reflexivity.
  - rewrite IH by (apply NoDup_pop; exact Hnd).
    rewrite pop_filter by exact Hnd.
    rewrite filter_twice; apply filter_ext; intros [k v]; simpl.
    rewrite negb_orb; reflexivity.
Qed.

End Headers.

Lemma extract_header_filter (E : Type) `{Entity E} (entity : E)
    (skip_headers : option (list str)) :
  extract_header entity skip_headers
  = List.filter
      (fun kv =>
         negb (str_in (fst kv)
                 (match skip_headers with Some names => names | None => [] end)))
      (PyDict.of_mapping (entity_headers entity)).
Proof.
  unfold extract_header.
  destruct skip_headers as [[|n names]|].
  - symmetry; apply filter_keep; reflexivity.
  - apply pop_all_filter, NoDup_of_mapping.
  - symmetry; apply filter_keep; reflexivity.
Qed.

(** X13: [extract_header] returns the copy of the headers, in its
    order, without the entries whose name is in the skip list; with no
    skip list, or an empty one, it returns the whole copy. *)
Theorem extract_header_keeps_order (E : Type) `{Entity E} (entity : E)
    (skip_headers : option (list str)) :
  extract_header entity skip_headers
  = List.filter
      (fun kv =>
         negb (str_in (fst kv)
                 (match skip_headers with Some names => names | None => [] end)))
      (PyDict.of_mapping (entity_headers entity))
  /\ extract_header entity None = PyDict.of_mapping (entity_headers entity)
  /\ extract_header entity (Some []) = PyDict.of_mapping (entity_headers entity).
Proof.
  split; [apply extract_header_filter | split; reflexivity].
Qed.

(** X14: two skip lists with the same names, in whatever order and
    however often repeated, give the same headers. *)
Theorem extract_header_skip_list_as_set (E : Type) `{Entity E} (entity : E)
    (names names' : list str) :
  (forall name, In name names <-> In name names') ->
  extract_header entity (Some names) = extract_header entity (Some names').
Proof.
  intros Hsame.
  rewrite !extract_header_filter.
  apply filter_ext; intros [k v]; simpl.
  f_equal.
  destruct (str_in k names) eqn:E1, (str_in k names') eqn:E2; try reflexivity.
  - apply str_in_In, Hsame, str_in_In in E1; congruence.
  - apply str_in_In, Hsame, str_in_In in E2; congruence.
Qed.

(** ** More about the client address *)

Lemma before_spec (sep : N) (s : str) :
  exists rest,
    s = PyStr.before sep s ++ rest
    /\ ~ In sep (PyStr.before sep s)
    /\ (rest = [] \/ exists rest', rest = sep :: rest').
Proof.
  induction s as [|c s (rest & Hs & Hnot & Hrest)]; simpl.
  - exists []; repeat split; auto.
  - destruct (N.eqb_spec c sep) as [->|Hne].
    + exists (sep :: s); repeat split; auto.
      right; exists s; reflexivity.
    + exists rest; split; [simpl; congruence|].
      split; [simpl; intros [E|Hin]; [congruence | contradiction] | exact Hrest].
Qed.

(** X15: a non-empty string in [forwarded] decides the address alone:
    the address is the part of the value before its first comma, as it
    stands (the whole value when there is no comma), whatever the socket
    pair, [ip], [port] and [remote_addr] are. *)
Theorem forwarded_first_field (request : Request.t) (value : str) :
  Request.forwarded request = VStr value ->
  PyStr.truthy value = true ->
  exists first rest,
    _get_client_ip request = Return first
    /\ value = first ++ rest
    /\ ~ In COMMA first
    /\ (rest = [] \/ exists rest', rest = COMMA :: rest').
Proof.
  intros Hfwd Htruthy.
  destruct (before_spec COMMA value) as (rest & Hsplit & Hnot & Hrest).
  exists (PyStr.before COMMA value), rest.
  split; [|auto].
  apply client_ip_forwarded_text; assumption.
Qed.

(** X16: without a forwarded value ([None], an empty string, an empty
    dictionary), a socket pair other than [(None, None)] is formatted as
    [host:port] even when one half of it is [None], which then reads
    [None]; [ip], [port] and [remote_addr] are not looked at. *)
Theorem socket_pair_formatted (request : Request.t)
    (host : option str) (port : option Z) :
  py_truthy (Request.forwarded request) = false ->
  Request.socket request = (host, port) ->
  (host, port) <> (None, None) ->
  _get_client_ip request
  = Return (format_str host ++ lit ":" ++ format_int port).
Proof.
  intros Hfwd Hsocket Hset.
  rewrite client_ip_without_forwarded by assumption.
  rewrite Hsocket.
  destruct host, port; try reflexivity; congruence.
Qed.

(** X17: without a forwarded value and with the socket pair
    [(None, None)], the address is [remote_addr] as soon as [ip] is [None]
    or empty, or [port] is [None] or [0]. *)
Theorem remote_addr_last_resort (request : Request.t) :
  py_truthy (Request.forwarded request) = false ->
  Request.socket request = (None, None) ->
  str_truthy (Request.ip request) = false
  \/ int_truthy (Request.port request) = false ->
  _get_client_ip request = Return (Request.remote_addr request).
Proof.
  intros Hfwd Hsocket Hmissing.
  assert (Hand : str_truthy (Request.ip request)
                 && int_truthy (Request.port request) = false).
  { destruct Hmissing as [-> | ->]; [reflexivity | apply andb_false_r]. }
  rewrite client_ip_without_forwarded by assumption.
  rewrite Hsocket, Hand; reflexivity.
Qed.

(** X19: a [forwarded] that is neither empty nor a string, such as
    the non-empty dictionary of proxy options, makes [_get_client_ip]
    raise [AttributeError], and [get_request_info] passes the exception
    on: no payload is built. *)
Theorem forwarded_without_split_raises
    (HTTP_WITH_BODY : list str) (get_url_dict : str -> pyval)
    (config : Config) (request : Request.t) (skip_headers : option (list str)) :
  py_truthy (Request.forwarded request) = true ->
  (forall value, Request.forwarded request <> VStr value) ->
  _get_client_ip request = Raise AttributeError
  /\ get_request_info HTTP_WITH_BODY get_url_dict config request skip_headers
     = Raise AttributeError.
Proof.
  intros Hfwd Hother.
  pose proof (client_ip_forwarded_other request Hfwd Hother) as Hraise.
  split; [exact Hraise|].
  pose proof (request_info_summary HTTP_WITH_BODY get_url_dict
                config request skip_headers) as Hsum.
  rewrite Hraise in Hsum; exact Hsum.
Qed.

(** ** [make_client] *)

(** X18: [make_client] calls the client class with the configuration
    and with keywords that are the caller's own when they name the
    framework; otherwise [framework_name] is ["sanic"] and
    [framework_version] is the version of Sanic, also when the caller gave
    a [framework_version], and every other keyword is the caller's. *)
Theorem make_client_keywords (version : str) (config defaults : dict pyval) :
  exists keywords,
    (forall (Client : Type) (client_cls : dict pyval -> dict pyval -> Client),
        make_client version Client config client_cls defaults
        = client_cls config keywords)
    /\ (PyDict.contains (lit "framework_name") defaults = true ->
        keywords = defaults)
    /\ (forall key,
          PyDict.get key keywords
          = if PyDict.contains (lit "framework_name") defaults
            then PyDict.get key defaults
            else if PyStr.eqb key (lit "framework_version")
            then Some (VStr version)
            else if PyStr.eqb key (lit "framework_name")
            then Some (VStr (lit "sanic"))
            else PyDict.get key defaults).
Proof.
  unfold make_client.
  destruct (PyDict.contains (lit "framework_name") defaults); simpl.
  - exists defaults; auto.
  - eexists; split; [reflexivity|]; split; [discriminate|].
    intros key; rewrite !get_set; reflexivity.
Qed.

(** ** The further properties on the sample inputs *)

Lemma request_body_decoded_for_any_type_witness :
  discarded_type (Request.content_type Samples.binary_upload) = true
  /\ exists result,
       get_request_info Samples.HTTP_WITH_BODY Samples.get_url_dict
         Samples.capture_all Samples.binary_upload None = Return result
       /\ PyDict.get (lit "body") result = Some (VStr (lit "abc")).
Proof.
  split; [reflexivity|].
  apply (request_body_decoded_for_any_type Samples.HTTP_WITH_BODY
           Samples.get_url_dict Samples.capture_all Samples.binary_upload None
           (lit "abc")); reflexivity.
Defined.

Lemma request_body_redacted_for_other_methods_witness :
  capture_body Samples.capture_all = true
  /\ exists result,
       get_request_info Samples.HTTP_WITH_BODY Samples.get_url_dict
         Samples.capture_all MoreSamples.plain_get None = Return result
       /\ PyDict.get (lit "body") result = Some (VStr REDACTED).
Proof.
  split; [reflexivity|].
  apply (request_body_redacted_for_other_methods Samples.HTTP_WITH_BODY
           Samples.get_url_dict Samples.capture_all MoreSamples.plain_get None).
  reflexivity.
Defined.

Lemma request_body_ascii_verbatim_witness :
  exists result,
    get_request_info Samples.HTTP_WITH_BODY Samples.get_url_dict
      Samples.capture_all MoreSamples.empty_upload None = Return result
    /\ PyDict.get (lit "body") result = Some (VStr (lit "")).
Proof.
  apply (request_body_ascii_verbatim Samples.HTTP_WITH_BODY
           Samples.get_url_dict Samples.capture_all MoreSamples.empty_upload None);
    [reflexivity | reflexivity | constructor].
Defined.

Lemma skip_list_unused_without_headers_witness :
  get_request_info Samples.HTTP_WITH_BODY Samples.get_url_dict
    Samples.capture_nothing Samples.text_upload None
  = get_request_info Samples.HTTP_WITH_BODY Samples.get_url_dict
      Samples.capture_nothing Samples.text_upload (Some [lit "accept"])
  /\ get_response_info Samples.capture_nothing MoreSamples.text_response None
     = get_response_info Samples.capture_nothing MoreSamples.text_response
         (Some [lit "accept"]).
Proof.
  apply (skip_list_unused_without_headers Samples.HTTP_WITH_BODY
           Samples.get_url_dict Samples.capture_nothing Samples.text_upload
           MoreSamples.text_response None (Some [lit "accept"])).
  reflexivity.
Defined.

Lemma response_body_redacted_witness :
  Utf8.decode (Response.body MoreSamples.binary_response) = Raise UnicodeDecodeError
  /\ exists result,
       get_response_info Samples.capture_all MoreSamples.binary_response None
       = Return result
       /\ PyDict.get (lit "body") result = Some (VStr REDACTED).
Proof.
  split; [reflexivity|].
  apply (response_body_redacted Samples.capture_all MoreSamples.binary_response None).
  right; eexists; split; reflexivity.
Defined.

Lemma response_body_decoded_witness :
  exists result,
    get_response_info Samples.capture_all MoreSamples.text_response None
    = Return result
    /\ PyDict.get (lit "body") result = Some (VStr (lit "ok")).
Proof.
  apply (response_body_decoded Samples.capture_all MoreSamples.text_response None
           (lit "text/plain") (lit "ok")); reflexivity.
Defined.

Lemma extract_header_skip_list_as_set_witness :
  extract_header MoreSamples.text_response (Some [lit "a"; lit "b"])
  = extract_header MoreSamples.text_response (Some [lit "b"; lit "a"; lit "a"]).
Proof.
  apply (extract_header_skip_list_as_set Response.t MoreSamples.text_response
           [lit "a"; lit "b"] [lit "b"; lit "a"; lit "a"]).
  intros name; simpl; tauto.
Defined.

Lemma forwarded_first_field_witness :
  exists first rest,
    _get_client_ip Samples.via_proxy = Return first
    /\ lit "1.2.3.4, 5.6.7.8" = first ++ rest
    /\ ~ In COMMA first
    /\ (rest = [] \/ exists rest', rest = COMMA :: rest').
Proof.
  apply (forwarded_first_field Samples.via_proxy (lit "1.2.3.4, 5.6.7.8"));
    reflexivity.
Defined.

Lemma socket_pair_formatted_witness :
  _get_client_ip MoreSamples.half_socket = Return (lit "None:80").
Proof.
  apply (socket_pair_formatted MoreSamples.half_socket None (Some 80%Z));
    [reflexivity | reflexivity | discriminate].
Defined.

Lemma remote_addr_last_resort_witness :
  Request.ip MoreSamples.port_zero = Some (lit "7.7.7.7")
  /\ Request.port MoreSamples.port_zero = Some 0%Z
  /\ _get_client_ip MoreSamples.port_zero = Return (lit "unknown").
Proof.
  split; [reflexivity | split; [reflexivity|]].
  apply (remote_addr_last_resort MoreSamples.port_zero);
    [reflexivity | reflexivity | right; reflexivity].
Defined.

Lemma make_client_keywords_witness :
  make_client MoreSamples.sanic_version _ [] pair MoreSamples.named_framework
  = ([], MoreSamples.named_framework).
Proof.
  destruct (make_client_keywords MoreSamples.sanic_version []
              MoreSamples.named_framework) as (keywords & Hcall & Hsame & _).
  rewrite Hcall, Hsame; reflexivity.
Defined.

Lemma forwarded_without_split_raises_witness :
  _get_client_ip MoreSamples.trusted_proxy = Raise AttributeError
  /\ get_request_info Samples.HTTP_WITH_BODY Samples.get_url_dict
       Samples.capture_nothing MoreSamples.trusted_proxy None
     = Raise AttributeError.
Proof.
  apply (forwarded_without_split_raises Samples.HTTP_WITH_BODY
           Samples.get_url_dict Samples.capture_nothing
           MoreSamples.trusted_proxy None);
    [reflexivity | discriminate].
Defined.

(** A response built without a content type: the test for
    [octet-stream] raises before the body is decoded; with body capture
    switched off the test is not made. *)
Example untyped_response_outcomes :
  get_response_info Samples.capture_all MoreSamples.untyped_response None
  = Raise TypeError
  /\ exists result,
       get_response_info Samples.capture_nothing MoreSamples.untyped_response None
       = Return result
       /\ PyDict.get (lit "body") result = Some (VStr REDACTED).
Proof.
  split; [reflexivity|].
  eexists; split; [vm_compute; reflexivity | reflexivity].
Qed.

(** A header name sent twice is copied once, with its first value. *)
Example repeated_header_first_value :
  PyDict.of_mapping
    [ (lit "a", VStr (lit "1")); (lit "b", VStr (lit "2"));
      (lit "a", VStr (lit "3")) ]
  = [ (lit "a", VStr (lit "1")); (lit "b", VStr (lit "2")) ].
Proof. reflexivity. Qed.
